(** * Flask-SQLAlchemy-Starter: the CRUD mixins of [app/database.py]

    A shallow embedding of the model classes [ModelCRUD], [BaseModel],
    [TableModel] and [AssociationModel], and of the part of the SQLAlchemy
    session they call, followed by the properties of the specification and
    by further properties of the code.

    Python objects are immutable values here and the session is threaded
    through every call by a state-and-exception monad.  The embedding keeps
    the session of one entity type: the rows of its table as the session
    sees them, the rows last committed, and the wall clock that
    [datetime.utcnow] reads.

    What is taken from SQLAlchemy and Python, and how far:
    - every column is declared under an attribute of its own name, as the
      helpers [new_fk] and [new_timestamp_column] and [TableModel] do, and
      the primary key is the integer column [id]; the columns a class
      inherits from [TableModel] come after those of its own body;
    - a new object is inserted when it is added, a deleted one is removed
      when it is deleted, and the attribute changes of a persistent object
      are flushed by the commit made on it; a flush emits an UPDATE only
      for columns whose value changed, and [onupdate] values only with it;
    - the storage checks the primary key and NOT NULL; a column without a
      given key gets one more than the largest key in use, as SQLite's
      INTEGER PRIMARY KEY does; integers have no width, so what is said of
      a lookup by id is said for a key that fits 64 bits and for a string
      of at most 4300 digits, beyond which the driver and [int] raise;
    - the keywords of a constructor call name columns: what the constructor
      does with the name of another attribute of the class is left out, and
      so are the types of the columns: a value is one its column takes;
    - a class property ([classmethod] over [property]) is read as an
      attribute of the class, as Python 3.9 to 3.12 do. *)

From Stdlib Require Import ZArith String Ascii List Bool Lia SpecFloat.
From stdpp Require Import gmap strings list fin_maps.

Set Default Proof Using "Type".

(** ** Python values *)

(** Values held by a column or passed as a keyword argument.  Column types
    whose values compare equal across types ([Bool], [Float], [Double]) are
    left out, so that Python's [==] on these values is structural equality. *)
Inductive value :=
| VNone
| VInt (z : Z)
| VStr (s : string)
| VTime (t : Z).

#[global] Instance value_eq_dec : EqDecision value.
Proof. solve_decision. Defined.

(** Objects a caller may pass as [id] to [get_by_id].  A [str] is a string
    of code points below 256, a [float] is an IEEE value. *)
Inductive pyobj :=
| PNone
| PBool (b : bool)
| PInt (z : Z)
| PFloat (f : spec_float)
| PStr (s : string)
| PObject.

(** Exceptions: the built-in ones the code can raise, SQLAlchemy's, and an
    exception class known by its name only. *)
Inductive exn :=
| TypeError
| ValueError
| OverflowError
| AttributeError
| KeyError (key : string)
| InvalidRequestError
| IntegrityError
| StaleDataError
| Named (class_name : string).

#[global] Instance exn_eq_dec : EqDecision exn.
Proof. solve_decision. Defined.

(** ** The session and its monad *)

Record session_state := SessionState {
  rows : list (gmap string value);     (* the table as the session sees it *)
  durable : list (gmap string value);  (* the table as last committed *)
  clock : nat -> Z;                    (* successive readings of utcnow *)
  reads : nat                          (* readings taken so far *)
}.

Inductive outcome (A : Type) :=
| Return (a : A) (s : session_state)
| Raise (e : exn) (s : session_state).
Arguments Return {A} a s.
Arguments Raise {A} e s.

Definition M (A : Type) : Type := session_state -> outcome A.

Definition ret {A} (a : A) : M A := fun s => Return a s.
Definition raise {A} (e : exn) : M A := fun s => Raise e s.
Definition bind {A B} (m : M A) (k : A -> M B) : M B :=
  fun s => match m s with
           | Return a s' => k a s'
           | Raise e s' => Raise e s'
           end.

Notation "'let*' x ':=' m 'in' k" := (bind m (fun x => k))
  (at level 10, x name, m at level 100, k at level 200).

(** [mapM f l] runs [f] over [l] from left to right, as a comprehension does. *)
Fixpoint mapM {A B} (f : A -> M B) (l : list A) : M (list B) :=
  match l with
  | [] => ret []
  | x :: l' => let* y := f x in let* ys := mapM f l' in ret (y :: ys)
  end.

(** ** Column metadata *)

(** The callables the code passes as [default=] and [onupdate=]. *)
Inductive generator := utcnow.

Module Column.
Record t := Build {
  name : string;
  foreign_keys : list string;    (* targets, as in ForeignKey("table.id") *)
  primary_key : bool;
  nullable : bool;
  default : option generator;
  onupdate : option generator
}.
End Column.

(** [Column(Integer, primary_key=True)], declared under the attribute [id]. *)
Definition id_column : Column.t :=
  Column.Build "id" [] true false None None.

(** [new_timestamp_column], declared under the attribute [attr] with the
    given [default=] and [onupdate=] options. *)
Definition new_timestamp_column (attr : string)
    (default onupdate : option generator) : Column.t :=
  Column.Build attr [] false true default onupdate.

(** The class an entity type inherits from. *)
Inductive base_class := FromBaseModel | FromTableModel | FromAssociationModel.

#[global] Instance base_class_eq_dec : EqDecision base_class.
Proof. solve_decision. Defined.

(** An entity type: a concrete subclass of one of the three abstract models.
    [declared] lists the columns of the subclass body in declaration order,
    each under an attribute of the column's own name. *)
Record entity := Entity {
  tablename : string;     (* __tablename__ *)
  classname : string;     (* __name__ *)
  base : base_class;
  declared : list Column.t
}.

(** The columns [TableModel] declares.  A subclass inherits them as copies
    made when the subclass is mapped, so they come after the columns of its
    own body: SQLAlchemy orders the columns of a table by creation. *)
Definition TableModel_columns : list Column.t :=
  [ id_column;
    new_timestamp_column "created_at" (Some utcnow) None;
    new_timestamp_column "updated_at" (Some utcnow) (Some utcnow) ].

(** [cls.__table__.columns] *)
Definition table_columns (cls : entity) : list Column.t :=
  match base cls with
  | FromBaseModel => declared cls
  | FromTableModel | FromAssociationModel => declared cls ++ TableModel_columns
  end.

Definition has_column (cls : entity) (k : string) : bool :=
  bool_decide (k ∈ map Column.name (table_columns cls)).

(** ** Rows and mapped objects *)

(** A row maps column names to values; a missing name is NULL. *)
Definition cell (r : gmap string value) (k : string) : value :=
  default VNone (r !! k).

(** A column takes part in an INSERT when the object holds a value other
    than [None] for it. *)
Definition supplied (r : gmap string value) (k : string) : bool :=
  negb (bool_decide (cell r k = VNone)).

Definition has_pk (pk : value) (r : gmap string value) : bool :=
  bool_decide (cell r "id" = pk).

(** The states of a mapped object the code can meet.  A persistent object
    has the primary key of its row, the column values it has loaded ([None]
    once a commit has expired them) and the attributes assigned since. *)
Inductive instance :=
| Transient (attrs : gmap string value)
| Persistent (pk : value) (loaded : option (gmap string value))
    (assigned : gmap string value)
| Deleted (pk : value).

(** [setattr(self, attr, val)] *)
Definition setattr (self : instance) (attr : string) (val : value) : instance :=
  match self with
  | Transient attrs => Transient (<[attr := val]> attrs)
  | Persistent pk loaded assigned => Persistent pk loaded (<[attr := val]> assigned)
  | Deleted pk => Deleted pk
  end.

(** [cls( **kwargs )], the declarative constructor: a keyword that is no
    attribute of the class is a [TypeError].  The attributes told apart here
    are the columns; a keyword that names a method or another attribute of
    the class is outside the embedding, and the properties that depend on
    the constructor are stated for keywords that name columns. *)
Definition construct (cls : entity) (kwargs : gmap string value) : M instance :=
  if forallb (fun kv => has_column cls kv.1) (map_to_list kwargs)
  then ret (Transient kwargs)
  else raise TypeError.

(** [getattr(self, attr)]: an assigned attribute, else a column of the
    object, reloaded from its row when the object has expired.  The reload
    is that of an object without pending changes: with pending changes the
    session would flush them first, and the properties read an expired
    object only where it has none. *)
Definition getattr (cls : entity) (self : instance) (attr : string) : M value :=
  match self with
  | Transient attrs =>
      match attrs !! attr with
      | Some v => ret v
      | None => if has_column cls attr then ret VNone else raise AttributeError
      end
  | Persistent pk loaded assigned =>
      match assigned !! attr with
      | Some v => ret v
      | None =>
          if has_column cls attr then
            match loaded with
            | Some r => ret (cell r attr)
            | None =>
                fun s => match head (filter (fun r => has_pk pk r) (rows s)) with
                         | Some r => Return (cell r attr) s
                         | None => Raise InvalidRequestError s
                         end
            end
          else raise AttributeError
      end
  | Deleted _ => raise InvalidRequestError
  end.

(** ** The SQLAlchemy session, as the models use it *)

Module db.

(** The next reading of the wall clock. *)
Definition generate (g : generator) : M value :=
  fun s => match g with
           | utcnow =>
               Return (VTime (clock s (reads s)))
                 (SessionState (rows s) (durable s) (clock s) (S (reads s)))
           end.

(** The values a statement computes on the Python side: one call of the
    generator per column that has one and is [due], in column order. *)
Fixpoint stamps (field : Column.t -> option generator) (due : string -> bool)
    (cols : list Column.t) : M (gmap string value) :=
  match cols with
  | [] => ret ∅
  | c :: cols' =>
      match field c with
      | Some g =>
          if due (Column.name c)
          then let* v := generate g in
               let* rest := stamps field due cols' in
               ret (<[Column.name c := v]> rest)
          else stamps field due cols'
      | None => stamps field due cols'
      end
  end.

(** The key an INTEGER PRIMARY KEY column gets when none is given: one
    more than the largest key in use, 1 in an empty table. *)
Definition int_keys (table : list (gmap string value)) : list Z :=
  omap (fun r => match cell r "id" with VInt k => Some k | _ => None end) table.

Definition next_id (table : list (gmap string value)) : Z :=
  match int_keys table with
  | [] => 1
  | k :: ks => 1 + foldr Z.max k ks
  end.

Definition pk_free (pk : value) (table : list (gmap string value)) : bool :=
  forallb (fun r => negb (has_pk pk r)) table.

Definition is_int (v : value) : bool :=
  match v with VInt _ => true | _ => false end.

(** The part of an object's attributes that the table stores. *)
Definition persisted (cls : entity) (attrs : gmap string value)
    : gmap string value :=
  filter (fun kv => has_column cls kv.1) attrs.

(** What the storage checks on an INSERT: an integer key not in use, and
    a value for every column that is not nullable. *)
Definition insert_ok (cls : entity) (table : list (gmap string value))
    (r : gmap string value) : bool :=
  is_int (cell r "id") && pk_free (cell r "id") table
  && forallb (fun c => Column.nullable c || supplied r (Column.name c))
       (table_columns cls).

Definition insert (cls : entity) (attrs : gmap string value) : M instance :=
  let* gen := stamps Column.default (fun k => negb (supplied attrs k))
                (table_columns cls) in
  fun s =>
    let r0 := gen ∪ attrs in
    let r1 := if supplied r0 "id" then r0
              else <["id" := VInt (next_id (rows s))]> r0 in
    let r := persisted cls r1 in
    if insert_ok cls (rows s) r
    then Return (Persistent (cell r "id") (Some r) ∅)
           (SessionState (rows s ++ [r]) (durable s) (clock s) (reads s))
    else Raise IntegrityError s.

(** [db.session.add(self)]: a new object is inserted at once, as the flush
    of the commit that follows does, or the autoflush ahead of the next
    query.  Between an [add] without commit and that flush the object is
    only pending, with no row and no key: what is said of the object that
    [create] returns is said for [commit=True]. *)
Definition session_add (cls : entity) (self : instance) : M instance :=
  match self with
  | Transient attrs => insert cls attrs
  | Persistent _ _ _ => ret self
  | Deleted _ => raise InvalidRequestError
  end.

(** [db.session.delete(self)] *)
Definition session_delete (self : instance) : M instance :=
  match self with
  | Persistent pk _ _ =>
      fun s => Return (Deleted pk)
                 (SessionState (filter (fun r => negb (has_pk pk r)) (rows s))
                    (durable s) (clock s) (reads s))
  | Transient _ => raise InvalidRequestError
  | Deleted pk => ret (Deleted pk)
  end.

(** The columns an UPDATE sets: the assigned columns whose value differs
    from the loaded one; every assigned column once the object has
    expired, since there is no loaded value to compare with. *)
Definition changes (cls : entity) (loaded : option (gmap string value))
    (assigned : gmap string value) : gmap string value :=
  filter (fun kv => has_column cls kv.1
                    && match loaded with
                       | Some r => negb (bool_decide (cell r kv.1 = kv.2))
                       | None => true
                       end) assigned.

Definition plain (cls : entity) (assigned : gmap string value)
    : gmap string value :=
  filter (fun kv => negb (has_column cls kv.1)) assigned.

(** What the storage checks on an UPDATE: a changed key is an integer not
    in use, and no column that is not nullable is set to NULL. *)
Definition update_ok (cls : entity) (pk : value)
    (table : list (gmap string value)) (ch : gmap string value) : bool :=
  match ch !! "id" with
  | None => true
  | Some k => is_int k && (bool_decide (k = pk) || pk_free k table)
  end
  && forallb (fun c => Column.nullable c
                       || negb (bool_decide (ch !! Column.name c = Some VNone)))
       (table_columns cls).

(** The flush of one object: no statement when no column changed. *)
Definition flush (cls : entity) (self : instance) : M instance :=
  match self with
  | Persistent pk loaded assigned =>
      let ch := changes cls loaded assigned in
      if bool_decide (ch = ∅) then ret (Persistent pk loaded (plain cls assigned))
      else
        let* gen := stamps Column.onupdate
                      (fun k => negb (bool_decide (k ∈ dom ch)))
                      (table_columns cls) in
        fun s =>
          if pk_free pk (rows s) then Raise StaleDataError s
          else if update_ok cls pk (rows s) ch
          then Return (Persistent (default pk (ch !! "id")) None (plain cls assigned))
                 (SessionState
                    (map (fun r => if has_pk pk r then gen ∪ ch ∪ r else r) (rows s))
                    (durable s) (clock s) (reads s))
          else Raise IntegrityError s
  | Transient _ | Deleted _ => ret self
  end.

(** Attributes of a persistent object expire when the session commits. *)
Definition expire (self : instance) : instance :=
  match self with
  | Persistent pk _ assigned => Persistent pk None assigned
  | Transient _ | Deleted _ => self
  end.

(** [db.session.commit()], seen from the object the call is made on: its
    pending changes are flushed, the rows become durable. *)
Definition session_commit (cls : entity) (self : instance) : M instance :=
  let* self := flush cls self in
  fun s => Return (expire self)
             (SessionState (rows s) (rows s) (clock s) (reads s)).

(** [db.session.get(cls, key)], for a key that fits the 64 bits of the
    storage; the driver refuses a larger one. *)
Definition entity_of (r : gmap string value) : instance :=
  Persistent (cell r "id") (Some r) ∅.

Definition session_get (key : Z) : M (option instance) :=
  fun s => Return (entity_of <$> head (filter (fun r => has_pk (VInt key) r) (rows s))) s.

(** Select statements: equalities joined by AND and an optional cap. *)
Record Select := Build_Select {
  whereclause : list (string * value);
  limit_clause : option nat
}.

(** A criterion built from a column, such as [cls.id.in_(ids)]. *)
Inductive clause := in_ (col : string) (vals : list value).

(** [db.select(cls)] *)
Definition select : Select := Build_Select [] None.

(** [query.filter_by( **kwargs )]: the method takes keywords only, so a
    positional argument is a [TypeError]; a keyword that names no
    attribute of the entity is an [InvalidRequestError]. *)
Definition filter_by (cls : entity) (query : Select) (args : list clause)
    (kwargs : gmap string value) : M Select :=
  match args with
  | _ :: _ => raise TypeError
  | [] =>
      if forallb (fun kv => has_column cls kv.1) (map_to_list kwargs)
      then ret (Build_Select (whereclause query ++ map_to_list kwargs)
                  (limit_clause query))
      else raise InvalidRequestError
  end.

(** [query.limit(n)] *)
Definition limit (query : Select) (n : nat) : Select :=
  Build_Select (whereclause query) (Some n).

Definition satisfies (query : Select) (r : gmap string value) : bool :=
  forallb (fun kv => bool_decide (cell r kv.1 = kv.2)) (whereclause query).

(** [db.session.execute(query)]: the rows in storage order. *)
Definition execute (query : Select) : M (list (gmap string value)) :=
  fun s =>
    let found := filter (fun r => satisfies query r) (rows s) in
    Return (match limit_clause query with
            | Some n => take n found
            | None => found
            end) s.

(** [.scalars()], [.scalar()] and [.all()] of a result. *)
Definition scalars (result : list (gmap string value)) : list instance :=
  map entity_of result.

Definition scalar (result : list (gmap string value)) : option instance :=
  head (scalars result).

Definition all (result : list (gmap string value)) : list (list instance) :=
  map (fun r => [entity_of r]) result.

End db.

(** ** Python built-ins used by [get_by_id] *)

Definition is_decimal (c : ascii) : bool :=
  (48 <=? nat_of_ascii c)%nat && (nat_of_ascii c <=? 57)%nat.

(** [str.isdigit] on one character: the decimal digits and, below 256, the
    superscripts two, three and one. *)
Definition isdigit_char (c : ascii) : bool :=
  is_decimal c
  || (nat_of_ascii c =? 178)%nat || (nat_of_ascii c =? 179)%nat
  || (nat_of_ascii c =? 185)%nat.

Fixpoint all_chars (p : ascii -> bool) (s : string) : bool :=
  match s with
  | EmptyString => true
  | String c s' => p c && all_chars p s'
  end.

(** [s.isdigit()]: false on the empty string. *)
Definition isdigit (s : string) : bool :=
  match s with
  | EmptyString => false
  | String _ _ => all_chars isdigit_char s
  end.

Fixpoint decimal_value (acc : Z) (s : string) : Z :=
  match s with
  | EmptyString => acc
  | String c s' => decimal_value (10 * acc + (Z.of_nat (nat_of_ascii c) - 48)) s'
  end.

(** [int(s)] on the strings [isdigit] lets through: a superscript digit is
    no decimal digit and makes [int] raise.  (Signs, blanks and underscores,
    which [int] also reads, never get past [isdigit].)  This is [int] on a
    string of at most 4300 digits, the most it reads by default; the
    properties of an id bound the string so. *)
Definition int_of_str (s : string) : exn + Z :=
  match s with
  | EmptyString => inl ValueError
  | String _ _ =>
      if all_chars is_decimal s then inr (decimal_value 0 s) else inl ValueError
  end.

(** [int(f)]: truncation towards zero; NaN and the infinities raise. *)
Definition int_of_float (f : spec_float) : exn + Z :=
  match f with
  | S754_zero _ => inr 0%Z
  | S754_infinity _ => inl OverflowError
  | S754_nan => inl ValueError
  | S754_finite sign m e =>
      let t := Z.shiftl (Z.pos m) e in
      inr (if sign then (- t)%Z else t)
  end.

Definition int (o : pyobj) : exn + Z :=
  match o with
  | PBool b => inr (Z.b2z b)
  | PInt z => inr z
  | PFloat f => int_of_float f
  | PStr s => int_of_str s
  | PNone | PObject => inl TypeError
  end.

(** ** class ModelCRUD *)

Module ModelCRUD.

(** [def commit(self)] *)
Definition commit (cls : entity) (self : instance) : M instance :=
  db.session_commit cls self.

(** [def save(self, *, commit=True)] *)
Definition save (cls : entity) (self : instance) (commit_ : bool) : M instance :=
  let* self := db.session_add cls self in
  if commit_ then commit cls self else ret self.

(** [def create(cls, *, commit=True, **kwargs)] *)
Definition create (cls : entity) (commit_ : bool)
    (kwargs : gmap string value) : M instance :=
  let* instance := construct cls kwargs in
  save cls instance commit_.

(** [def update(self, *, commit=True, **kwargs)] *)
Definition update (cls : entity) (self : instance) (commit_ : bool)
    (kwargs : gmap string value) : M instance :=
  let self := map_fold (fun attr val self => setattr self attr val) self kwargs in
  if commit_ then save cls self true else ret self.

(** [def delete(self, *, commit=True)] *)
Definition delete (cls : entity) (self : instance) (commit_ : bool) : M unit :=
  let* self := db.session_delete self in
  if commit_ then let* _ := commit cls self in ret tt else ret tt.

End ModelCRUD.

(** A call [f( **kwargs )] of [create], whose own keyword is [commit]: a
    [commit] key of the mapping binds to that flag, which [save] tests for
    truth, and the other keys are the keyword arguments of the call. *)
Definition truthy (v : value) : bool :=
  match v with
  | VNone => false
  | VInt z => negb (z =? 0)%Z
  | VStr str => negb (bool_decide (str = EmptyString))
  | VTime _ => true
  end.

Definition commit_of (kwargs : gmap string value) : bool :=
  match kwargs !! "commit" with
  | Some v => truthy v
  | None => true
  end.

(** ** class BaseModel(ModelCRUD, db.Model) *)

Module BaseModel.

Definition table_name (cls : entity) : string := tablename cls.
Definition model_name (cls : entity) : string := classname cls.

(** [def get_columns(cls)] *)
Definition get_columns (cls : entity) : list Column.t := table_columns cls.


(** [def new_fk(cls, *, name=None, nullable=False)], declared under the
    attribute [attr]. *)
Definition new_fk (cls : entity) (name : option string) (nullable : bool)
    (attr : string) : Column.t :=
  let name := match name with None => table_name cls | Some name => name end in
  Column.Build attr [(name +:+ ".id")%string] false nullable None None.

(** [def create_or_update(cls, **kwargs)]: [cls.create( **kwargs )]. *)
Definition create_or_update (cls : entity) (kwargs : gmap string value)
    : M instance :=
  ModelCRUD.create cls (commit_of kwargs) (delete "commit" kwargs).

(** [def get_by_id(cls, id)] *)
Definition get_by_id (cls : entity) (id : pyobj) : M (option instance) :=
  if match id with PStr s => isdigit s | _ => false end
     || match id with PBool _ | PInt _ | PFloat _ => true | _ => false end
  then match int id with
       | inr key => db.session_get key
       | inl e => raise e
       end
  else ret None.

(** [def update_by_id(cls, *, id=None, commit=True, **kwargs)]: the method
    lookup on the result of [get_by_id] fails on [None]. *)
Definition update_by_id (cls : entity) (id : pyobj) (commit_ : bool)
    (kwargs : gmap string value) : M unit :=
  let* found := get_by_id cls id in
  match found with
  | None => raise AttributeError
  | Some record => let* _ := ModelCRUD.update cls record commit_ kwargs in ret tt
  end.

(** [def delete_by_id(cls, *, id=None, commit=True, **kwargs)]: [delete]
    takes no keyword but [commit]. *)
Definition delete_by_id (cls : entity) (id : pyobj) (commit_ : bool)
    (kwargs : gmap string value) : M unit :=
  let* found := get_by_id cls id in
  match found with
  | None => raise AttributeError
  | Some record =>
      if bool_decide (kwargs = ∅) then ModelCRUD.delete cls record commit_
      else raise TypeError
  end.

(** [def get_by_ids(cls, ids)] *)
Definition get_by_ids (cls : entity) (ids : list value) : M (list instance) :=
  let* query := db.filter_by cls db.select [db.in_ "id" ids] ∅ in
  let* result := db.execute query in
  ret (db.scalars result).

(** [def select(cls, *conditions, **kwargs)] *)
Definition select (cls : entity) (conditions : list db.clause)
    (kwargs : gmap string value) : M db.Select :=
  let query := db.select in
  let* query := match conditions with
                | _ :: _ => db.filter_by cls query conditions ∅
                | [] => ret query
                end in
  let* query := if bool_decide (kwargs = ∅) then ret query
                else db.filter_by cls query [] kwargs in
  ret query.

(** [def get_scalars(cls, *conditions, limit=None, **kwargs)]; the test
    [if limit:] holds for a number other than 0. *)
Definition get_scalars (cls : entity) (conditions : list db.clause)
    (limit : option nat) (kwargs : gmap string value) : M (list instance) :=
  let* query := select cls conditions kwargs in
  let query := match limit with
               | Some (S n) => db.limit query (S n)
               | Some O | None => query
               end in
  let* result := db.execute query in
  ret (db.scalars result).

(** [def get_all(cls)] *)
Definition get_all (cls : entity) : M (list (list instance)) :=
  let* query := select cls [] ∅ in
  let* result := db.execute query in
  ret (db.all result).

(** [def get_first(cls, **kwargs)] *)
Definition get_first (cls : entity) (kwargs : gmap string value)
    : M (option instance) :=
  let* query := select cls [] kwargs in
  let* result := db.execute query in
  ret (db.scalar result).

(** [def get_table_as_list(cls)] *)
Definition get_table_as_list (cls : entity) : M (list (list value)) :=
  let columns := get_columns cls in
  let* records := get_scalars cls [] None ∅ in
  mapM (fun r => mapM (fun c => getattr cls r (Column.name c)) columns) records.



End BaseModel.

(** ** class AssociationModel(TableModel) *)

Module AssociationModel.

(** [def fk_names(cls)], a class property: computed from the columns at
    each access. *)
Definition fk_names (cls : entity) : list string :=
  map Column.name
    (List.filter (fun c => match Column.foreign_keys c with
                           | [] => false
                           | _ :: _ => true
                           end)
       (BaseModel.get_columns cls)).

(** [{k: kwargs[k] for k in names}]: a missing key raises [KeyError]. *)
Fixpoint subdict (kwargs : gmap string value) (names : list string)
    (acc : gmap string value) : M (gmap string value) :=
  match names with
  | [] => ret acc
  | k :: names' =>
      match kwargs !! k with
      | Some v => subdict kwargs names' (<[k := v]> acc)
      | None => raise (KeyError k)
      end
  end.

(** [def create_or_update(cls, **kwargs)], for keywords without a [commit]
    key, so that [update] and [create] are called with their default
    [commit=True]. *)
Definition create_or_update (cls : entity) (kwargs : gmap string value)
    : M instance :=
  let* fk_dict := subdict kwargs (fk_names cls) ∅ in
  let* record := BaseModel.get_first cls fk_dict in
  match record with
  | Some record => ModelCRUD.update cls record true kwargs
  | None => ModelCRUD.create cls true kwargs
  end.

End AssociationModel.

(** [cls.create_or_update( **kwargs )]: the method of the nearest class. *)
Definition create_or_update (cls : entity) (kwargs : gmap string value)
    : M instance :=
  match base cls with
  | FromAssociationModel => AssociationModel.create_or_update cls kwargs
  | FromBaseModel | FromTableModel => BaseModel.create_or_update cls kwargs
  end.

(** ** Example entity types *)

Definition Student : entity := Entity "student" "Student" FromTableModel
  [ Column.Build "name" [] false true None None ].

Definition Course : entity := Entity "course" "Course" FromTableModel
  [ Column.Build "title" [] false true None None ].

(** [Enrollment(student_id, course_id, grade)], an association of
    [Student] and [Course]. *)
Definition Enrollment : entity := Entity "enrollment" "Enrollment" FromAssociationModel
  [ BaseModel.new_fk Student None false "student_id";
    BaseModel.new_fk Course None false "course_id";
    Column.Build "grade" [] false true None None ].

Definition empty_session : session_state :=
  SessionState [] [] (fun n => Z.of_nat n) 0.

(** ** The statements of the specification *)


(** The specification's reading of a failed lookup by id: both operations
    fail with an exception class named [NotFoundError]. *)
Definition not_found_claim (cls : entity) (id : pyobj) (commit_ : bool)
    (kwargs : gmap string value) (s : session_state) : Prop :=
  BaseModel.get_by_id cls id s = Return None s ->
  BaseModel.update_by_id cls id commit_ kwargs s = Raise (Named "NotFoundError") s
  /\ BaseModel.delete_by_id cls id commit_ kwargs s = Raise (Named "NotFoundError") s.

(** The session after [n] more readings of the clock. *)
Definition advance (s : session_state) (n : nat) : session_state :=
  SessionState (rows s) (durable s) (clock s) (reads s + n).

(** Ids that [get_by_id] does not take for a number: an object that is no
    [str], [int] or [float], and a string that [isdigit] rejects (the empty
    string, a string with a sign, a blank or a letter). *)
Definition unrecognised (id : pyobj) : Prop :=
  match id with
  | PNone | PObject => True
  | PStr str => isdigit str = false
  | PBool _ | PInt _ | PFloat _ => False
  end.

(** [reads_as id z]: [id] is a number, or a string of decimal digits, whose
    integer value is [z]; a float that has none (NaN, an infinity) and a
    string with a superscript digit read as nothing. *)
Definition reads_as (id : pyobj) (z : Z) : Prop :=
  match id with
  | PBool b => z = Z.b2z b
  | PInt k => z = k
  | PFloat f => int_of_float f = inr z
  | PStr str => str <> EmptyString /\ all_chars is_decimal str = true
                /\ z = decimal_value 0 str
  | PNone | PObject => False
  end.

(** The specification's reading of [get_by_id]: null for an id that is
    negative, that is no number, or that names no stored record. *)
Definition negative (id : pyobj) : Prop :=
  match id with
  | PInt z => (z < 0)%Z
  | PFloat (S754_finite true _ _) | PFloat (S754_infinity true) => True
  | PStr (String "-" _) => True
  | _ => False
  end.

Definition names_record (s : session_state) (id : pyobj) : Prop :=
  exists z r, reads_as id z /\ r ∈ rows s /\ cell r "id" = VInt z.

Definition soft_fail_claim (cls : entity) (id : pyobj) (s : session_state) : Prop :=
  negative id \/ unrecognised id \/ ~ names_record s id ->
  BaseModel.get_by_id cls id s = Return None s.

(** The session after [Student.create(id=-1, name="Ada")] on an empty table. *)
Definition negative_id_session : session_state :=
  let row : gmap string value :=
    {[ "id" := VInt (-1); "name" := VStr "Ada";
       "created_at" := VTime 0; "updated_at" := VTime 1 ]} in
  SessionState [row] [row] (fun n => Z.of_nat n) 2.

(** The string made of the one character SUPERSCRIPT TWO (code point 178). *)
Definition superscript_two : string := String (ascii_of_nat 178) EmptyString.

(** The rows that agree with every equality of [kwargs]. *)
Definition matching (kwargs : gmap string value)
    (table : list (gmap string value)) : list (gmap string value) :=
  filter (fun r => map_Forall (fun k v => cell r k = v) kwargs) table.


(** The session after [Student.create(name="Ada")] on an empty table. *)
Definition ada_session : session_state :=
  let row : gmap string value :=
    {[ "id" := VInt 1; "name" := VStr "Ada";
       "created_at" := VTime 0; "updated_at" := VTime 1 ]} in
  SessionState [row] [row] (fun n => Z.of_nat n) 2.

(** A record updated again and again by its holder:
    [for u in us: self.update( **u )]. *)
Fixpoint updates (cls : entity) (self : instance)
    (us : list (gmap string value)) : M instance :=
  match us with
  | [] => ret self
  | u :: us' =>
      let* self := ModelCRUD.update cls self true u in
      updates cls self us'
  end.

(** An entity type with the columns of [TableModel], none of which its own
    declarations replace. *)
Definition timestamped (cls : entity) : bool :=
  negb (bool_decide (base cls = FromBaseModel))
  && negb (bool_decide ("created_at" ∈ map Column.name (declared cls)))
  && negb (bool_decide ("updated_at" ∈ map Column.name (declared cls))).

(** A clock that never goes back. *)
Definition monotone (s : session_state) : Prop :=
  forall i j, i <= j -> (clock s i <= clock s j)%Z.

(** Every row's [updated_at] is a reading the clock has already given. *)
Definition stamped (s : session_state) : Prop :=
  forall row, row ∈ rows s ->
    exists j, j < reads s /\ cell row "updated_at" = VTime (clock s j).

(** The session after [Student.create(name="Ada")] and then
    [update(created_at=100)] on the record. *)
Definition backdated_session : session_state :=
  let row : gmap string value :=
    {[ "id" := VInt 1; "name" := VStr "Ada";
       "created_at" := VTime 100; "updated_at" := VTime 2 ]} in
  SessionState [row] [row] (fun n => Z.of_nat n) 3.

(** The specification's reading of the timestamps, for a record created
    with [kwargs] and then updated with [u]: [updated_at] equals
    [created_at] after the creation, and the update leaves [created_at]. *)
Definition timestamp_claim (cls : entity) (kwargs u : gmap string value)
    (s0 : session_state) : Prop :=
  forall r1 s1 r2 s2 row1 row2,
    ModelCRUD.create cls true kwargs s0 = Return r1 s1 ->
    ModelCRUD.update cls r1 true u s1 = Return r2 s2 ->
    rows s1 !! length (rows s0) = Some row1 ->
    rows s2 !! length (rows s0) = Some row2 ->
    cell row1 "updated_at" = cell row1 "created_at"
    /\ cell row2 "created_at" = cell row1 "created_at".

(** The number of clock readings a due column costs. *)
Definition b2n (b : bool) : nat := if b then 1 else 0.

(** The natural key of an association record: the keyword arguments at the
    foreign-key names. *)
Definition natural_key (cls : entity) (kwargs : gmap string value)
    : gmap string value :=
  filter (fun kv => kv.1 ∈ AssociationModel.fk_names cls) kwargs.

(** The upsert as the specification words it: look up by the natural key,
    update the record found with all the fields, else create one. *)
Definition upsert_as_specified (cls : entity) (kwargs : gmap string value)
    : M instance :=
  let* record := BaseModel.get_first cls (natural_key cls kwargs) in
  match record with
  | Some record => ModelCRUD.update cls record true kwargs
  | None => ModelCRUD.create cls true kwargs
  end.

(** An association entity type whose declarations leave the [id] column of
    [TableModel] alone. *)
Definition association (cls : entity) : bool :=
  bool_decide (base cls = FromAssociationModel)
  && negb (bool_decide ("id" ∈ map Column.name (declared cls))).

(** A column name that some column fills by a generator. *)
Definition generated (cls : entity) (k : string) : bool :=
  existsb (fun c => bool_decide (Column.name c = k)
                    && (bool_decide (Column.default c <> None)
                        || bool_decide (Column.onupdate c <> None)))
    (table_columns cls).

(** The columns named [k] all accept NULL. *)
Definition accepts_null (cls : entity) (k : string) : bool :=
  forallb (fun c => negb (bool_decide (Column.name c = k)) || Column.nullable c)
    (table_columns cls).

(** Field mappings the storage accepts for a record of [cls]: every key is
    a column other than [id] that no generator fills, [None] is given only
    where the column accepts NULL, and every column that needs a value
    from the caller gets one. *)
Definition acceptable (cls : entity) (fields : gmap string value) : bool :=
  forallb (fun kv => has_column cls kv.1
                     && negb (bool_decide (kv.1 = "id"))
                     && negb (generated cls kv.1)
                     && (negb (bool_decide (kv.2 = VNone)) || accepts_null cls kv.1))
    (map_to_list fields)
  && forallb (fun c => Column.nullable c
                       || bool_decide (Column.name c = "id")
                       || bool_decide (Column.default c <> None)
                       || supplied fields (Column.name c))
       (table_columns cls).

(** The specification's reading of the upsert: after two calls with the
    same foreign-key values, exactly one committed record has the key, and
    it carries the fields of the second call. *)
Definition upsert_claim (cls : entity) (fields1 fields2 : gmap string value)
    (s : session_state) : Prop :=
  forall r1 s1 r2 s2,
    create_or_update cls fields1 s = Return r1 s1 ->
    create_or_update cls fields2 s1 = Return r2 s2 ->
    exists row,
      matching (natural_key cls fields1) (durable s2) = [row]
      /\ forall k v, fields2 !! k = Some v -> cell row k = v.

(** The specification's reading of the default [create_or_update]: the
    value and the session of [create(fields, commit=True)]. *)
Definition create_claim (cls : entity) (fields : gmap string value)
    (s : session_state) : Prop :=
  create_or_update cls fields s = ModelCRUD.create cls true fields s.

(** A key the storage can hold: a signed integer of 64 bits. *)
Definition fits (z : Z) : Prop := (- 2 ^ 63 <= z < 2 ^ 63)%Z.

(** A string id that [int] reads whatever its digits: at most 4300
    characters, the most digits [int] takes from a string by default. *)
Definition short (id : pyobj) : Prop :=
  match id with
  | PStr str => String.length str <= 4300
  | _ => True
  end.

(** The clock readings a statement takes for the columns [cols]: one for
    each column that has a generator and is [due]. *)
Definition readings (field : Column.t -> option generator) (due : string -> bool)
    (cols : list Column.t) : nat :=
  length (List.filter (fun c => match field c with
                                | Some _ => due (Column.name c)
                                | None => false
                                end) cols).

(** A table whose keys the storage can hold. *)
Definition storable (table : list (gmap string value)) : Prop :=
  forall row z, row ∈ table -> cell row "id" = VInt z -> fits z.


(** An entity type with an [id] column that no generator fills. *)
Definition keyed (cls : entity) : bool :=
  has_column cls "id" && negb (generated cls "id").

(** ** Notions for the properties of the code *)

(** The session an outcome leaves behind, with a value or an exception. *)
Definition final {A} (o : outcome A) : session_state :=
  match o with Return _ s | Raise _ s => s end.

(** No two rows of a table share their primary key. *)
Definition keys_unique (table : list (gmap string value)) : Prop :=
  NoDup (map (fun r => cell r "id") table).

(** The tables of [s'] are those of [s]: only the clock may have moved. *)
Definition untouched (s s' : session_state) : Prop :=
  rows s' = rows s /\ durable s' = durable s /\ clock s' = clock s.

(** Both tables of a session have unique primary keys. *)
Definition well_keyed (s : session_state) : Prop :=
  keys_unique (rows s) /\ keys_unique (durable s).

(** [m] keeps the invariant [I] of the session, whatever its outcome. *)
Definition keeps {A} (I : session_state -> Prop) (m : M A) : Prop :=
  forall s, I s -> I (final (m s)).



(** * Properties *)

(** ** The monad *)

Lemma bind_Return {A B} (m : M A) (k : A -> M B) s a s' :
  m s = Return a s' -> bind m k s = k a s'.
Proof. intros H. unfold bind. now rewrite H. Qed.

Lemma bind_Raise {A B} (m : M A) (k : A -> M B) s e s' :
  m s = Raise e s' -> bind m k s = Raise e s'.
Proof. intros H. unfold bind. now rewrite H. Qed.

Lemma bind_inv {A B} (m : M A) (k : A -> M B) s b s2 :
  bind m k s = Return b s2 ->
  exists a s1, m s = Return a s1 /\ k a s1 = Return b s2.
Proof.
  unfold bind. destruct (m s) as [a s1|e s1]; [eauto | discriminate].
Qed.

(** ** Foreign-key names *)



(** ** The natural key of an association *)

Lemma subdict_missing kwargs names acc s :
  (exists k, k ∈ names /\ kwargs !! k = None) ->
  exists k, k ∈ names /\ kwargs !! k = None
            /\ AssociationModel.subdict kwargs names acc s = Raise (KeyError k) s.
Proof.
  revert acc. induction names as [|n names IH]; intros acc (k & Hin & Hk).
  - inversion Hin.
  - simpl. destruct (kwargs !! n) as [v|] eqn:En.
    + apply elem_of_cons in Hin as [->|Hin]; [congruence|].
      destruct (IH (<[n := v]> acc)) as (k' & Hin' & Hk' & Hr); [eauto|].
      exists k'. split; [now right | auto].
    + exists n. split; [now left | auto].
Qed.

Lemma subdict_present kwargs names acc s :
  (forall k, k ∈ names -> is_Some (kwargs !! k)) ->
  exists d, AssociationModel.subdict kwargs names acc s = Return d s
            /\ forall k, d !! k = if decide (k ∈ names) then kwargs !! k else acc !! k.
Proof.
  revert acc. induction names as [|n names IH]; intros acc Hall.
  - exists acc. split; [reflexivity|]. intros k.
    destruct (decide (k ∈ [])) as [H|_]; [inversion H | reflexivity].
  - simpl. destruct (Hall n) as [v Hv]; [now left|]. rewrite Hv.
    destruct (IH (<[n := v]> acc)) as (d & Hd & Hlook).
    { intros k Hk. apply Hall. now right. }
    exists d. split; [exact Hd|]. intros k. rewrite Hlook.
    destruct (decide (k ∈ names)) as [Hk|Hk].
    + rewrite decide_True by now right. reflexivity.
    + destruct (decide (k = n)) as [->|Hne].
      * rewrite decide_True by now left. now rewrite lookup_insert_eq.
      * rewrite decide_False; [now rewrite lookup_insert_ne|].
        intros H. apply elem_of_cons in H as [?|?]; contradiction.
Qed.

(** C10: when the keyword arguments lack one of the foreign-key names, the
    association's [create_or_update] raises [KeyError] for the first such
    name while it builds the key, and the session is as it was: nothing was
    looked up, created or updated. *)
Theorem create_or_update_missing_fk_raises_KeyError
    (cls : entity) (kwargs : gmap string value) (s : session_state) :
  base cls = FromAssociationModel ->
  (exists k, k ∈ AssociationModel.fk_names cls /\ kwargs !! k = None) ->
  exists k, k ∈ AssociationModel.fk_names cls /\ kwargs !! k = None
            /\ create_or_update cls kwargs s = Raise (KeyError k) s.
Proof.
  intros Hbase Hmiss. unfold create_or_update. rewrite Hbase.
  unfold AssociationModel.create_or_update.
  destruct (subdict_missing kwargs (AssociationModel.fk_names cls) ∅ s Hmiss)
    as (k & Hin & Hk & Hr).
  exists k. split; [exact Hin|]. split; [exact Hk|].
  now apply bind_Raise.
Qed.

Lemma create_or_update_missing_fk_witness :
  exists k, k ∈ AssociationModel.fk_names Enrollment
            /\ ({[ "student_id" := VInt 1 ]} : gmap string value) !! k = None
            /\ create_or_update Enrollment {[ "student_id" := VInt 1 ]} empty_session
               = Raise (KeyError k) empty_session.
Proof.
  apply (create_or_update_missing_fk_raises_KeyError Enrollment
           {[ "student_id" := VInt 1 ]} empty_session).
  - reflexivity.
  - exists "course_id". split; [vm_compute; right; left | reflexivity].
Defined.

(** ** Lookup by id *)

Lemma session_get_state key s :
  exists r, db.session_get key s = Return r s.
Proof. unfold db.session_get. eauto. Qed.

Lemma get_by_id_state cls id s :
  (exists r, BaseModel.get_by_id cls id s = Return r s)
  \/ (exists e, BaseModel.get_by_id cls id s = Raise e s).
Proof.
  unfold BaseModel.get_by_id.
  destruct (_ || _).
  - destruct (int id) as [e|key]; [right; eexists; reflexivity|].
    left. apply session_get_state.
  - left. eexists; reflexivity.
Qed.

(** C2, as the code has it: when [get_by_id] finds nothing, [update_by_id]
    and [delete_by_id] both fail with the [AttributeError] of a method
    lookup on [None], whatever the other arguments, and the session, with
    its rows, is as it was before the call. *)
Theorem by_id_on_missing_record_raises_AttributeError
    (cls : entity) (id : pyobj) (commit_ : bool) (kwargs : gmap string value)
    (s s' : session_state) :
  BaseModel.get_by_id cls id s = Return None s' ->
  s' = s
  /\ BaseModel.update_by_id cls id commit_ kwargs s = Raise AttributeError s
  /\ BaseModel.delete_by_id cls id commit_ kwargs s = Raise AttributeError s.
Proof.
  intros Hget.
  assert (Hs : s' = s).
  { destruct (get_by_id_state cls id s) as [[r Hr]|[e He]]; congruence. }
  subst s'. split; [reflexivity|].
  unfold BaseModel.update_by_id, BaseModel.delete_by_id.
  split; erewrite bind_Return by exact Hget; reflexivity.
Qed.

Lemma by_id_on_missing_record_witness :
  empty_session = empty_session
  /\ BaseModel.update_by_id Student (PInt 1) true {[ "name" := VStr "Ada" ]} empty_session
     = Raise AttributeError empty_session
  /\ BaseModel.delete_by_id Student (PInt 1) true {[ "name" := VStr "Ada" ]} empty_session
     = Raise AttributeError empty_session.
Proof.
  apply (by_id_on_missing_record_raises_AttributeError Student (PInt 1) true
           {[ "name" := VStr "Ada" ]} empty_session empty_session).
  reflexivity.
Defined.

(** C2 as the specification states it fails: on an empty table
    [update_by_id(id=1)] raises [AttributeError], not [NotFoundError]. *)
Lemma not_found_claim_fails :
  ~ not_found_claim Student (PInt 1) true ∅ empty_session.
Proof.
  intros H. destruct H as [Hu _]; [reflexivity|].
  discriminate Hu.
Qed.

(** C4: [get_by_ids] hands its criterion to [filter_by] as a positional
    argument, so every call raises [TypeError] before any query runs; no
    record is ever returned. *)
Theorem get_by_ids_raises_TypeError
    (cls : entity) (ids : list value) (s : session_state) :
  BaseModel.get_by_ids cls ids s = Raise TypeError s.
Proof.
  unfold BaseModel.get_by_ids.
  apply bind_Raise. reflexivity.
Qed.

(** ** Statements on the Python side: generated values *)

Lemma advance_0 s : advance s 0 = s.
Proof. destruct s. unfold advance. simpl. now rewrite Nat.add_0_r. Qed.

Lemma advance_advance s n m : advance (advance s n) m = advance s (n + m).
Proof. unfold advance. simpl. now rewrite Nat.add_assoc. Qed.

(** [stamps] always returns, and only the clock moves. *)
Lemma stamps_run field due cols s :
  exists g n, db.stamps field due cols s = Return g (advance s n).
Proof.
  revert s. induction cols as [|c cols IH]; intros s; simpl.
  - exists ∅, 0. now rewrite advance_0.
  - destruct (field c) as [[]|]; [destruct (due (Column.name c))|]; try apply IH.
    unfold bind at 1. simpl.
    destruct (IH (SessionState (rows s) (durable s) (clock s) (S (reads s))))
      as (g & n & Hg).
    unfold bind. rewrite Hg. unfold ret.
    exists (<[Column.name c := VTime (clock s (reads s))]> g), (S n).
    f_equal. unfold advance. simpl. f_equal. lia.
Qed.

(** [stamps] reads the clock once for each due column with a generator. *)
Lemma stamps_readings field due cols s :
  exists g,
    db.stamps field due cols s = Return g (advance s (readings field due cols)).
Proof.
  revert s. induction cols as [|c cols IH]; intros s; unfold readings; simpl.
  - exists ∅. now rewrite advance_0.
  - destruct (field c) as [[]|]; [destruct (due (Column.name c))|]; try apply IH.
    simpl. unfold bind at 1. simpl.
    destruct (IH (SessionState (rows s) (durable s) (clock s) (S (reads s))))
      as (g & Hg).
    unfold bind. rewrite Hg. unfold ret.
    exists (<[Column.name c := VTime (clock s (reads s))]> g).
    f_equal. unfold advance, readings. simpl. f_equal. lia.
Qed.

(** What [stamps] generates: a time, for a due column that has a generator. *)
Lemma stamps_lookup field due cols s g s' k v :
  db.stamps field due cols s = Return g s' ->
  g !! k = Some v ->
  due k = true /\ (exists t, v = VTime t)
  /\ exists c, c ∈ cols /\ Column.name c = k /\ field c <> None.
Proof.
  revert s g. induction cols as [|c cols IH]; intros s g; simpl.
  - unfold ret. intros [= <- <-]. now rewrite lookup_empty.
  - assert (Hrec : forall s0 g0, db.stamps field due cols s0 = Return g0 s' ->
               g0 !! k = Some v ->
               due k = true /\ (exists t, v = VTime t)
               /\ exists c0, c0 ∈ c :: cols /\ Column.name c0 = k /\ field c0 <> None).
    { intros s0 g0 H0 Hk. destruct (IH s0 g0 H0 Hk) as (Hd & Ht & c0 & Hin & Hn & Hf).
      split; [exact Hd|]. split; [exact Ht|]. exists c0. split; [now right | auto]. }
    destruct (field c) as [[]|] eqn:Ef; [destruct (due (Column.name c)) eqn:Ed|];
      try apply Hrec.
    intros H Hk. apply bind_inv in H as (v0 & s1 & Hgen & H).
    apply bind_inv in H as (rest & s2 & Hrest & H).
    unfold ret in H. injection H as <- <-.
    unfold db.generate in Hgen. injection Hgen as <- <-.
    destruct (decide (Column.name c = k)) as [<-|Hne].
    + rewrite lookup_insert_eq in Hk. injection Hk as <-.
      split; [exact Ed|]. split; [eauto|].
      exists c. split; [now left|]. split; [reflexivity | congruence].
    + rewrite lookup_insert_ne in Hk by exact Hne. eapply Hrec; eauto.
Qed.

(** ** [create] *)

Lemma changes_empty cls loaded : db.changes cls loaded ∅ = ∅.
Proof. unfold db.changes. apply map_filter_empty. Qed.

Lemma plain_empty cls : db.plain cls ∅ = ∅.
Proof. unfold db.plain. apply map_filter_empty. Qed.

(** A commit right after the insert has nothing to flush. *)
Lemma commit_fresh cls pk r s :
  ModelCRUD.commit cls (Persistent pk (Some r) ∅) s
  = Return (Persistent pk None ∅)
      (SessionState (rows s) (rows s) (clock s) (reads s)).
Proof.
  unfold ModelCRUD.commit, db.session_commit, db.flush.
  rewrite changes_empty, plain_empty. reflexivity.
Qed.

(** The row an INSERT stores for the attributes [attrs], given the values
    [gen] generated for it. *)
Lemma insert_inv cls attrs s r s' :
  db.insert cls attrs s = Return r s' ->
  exists gen n row,
    db.stamps Column.default (fun k => negb (supplied attrs k)) (table_columns cls) s
    = Return gen (advance s n)
    /\ row = db.persisted cls
               (if supplied (gen ∪ attrs) "id" then gen ∪ attrs
                else <["id" := VInt (db.next_id (rows s))]> (gen ∪ attrs))
    /\ db.insert_ok cls (rows s) row = true
    /\ r = Persistent (cell row "id") (Some row) ∅
    /\ s' = SessionState (rows s ++ [row]) (durable s) (clock s) (reads s + n).
Proof.
  unfold db.insert. intros H.
  destruct (stamps_run Column.default (fun k => negb (supplied attrs k))
              (table_columns cls) s) as (gen & n & Hgen).
  rewrite (bind_Return _ _ _ _ _ Hgen) in H. simpl in H.
  exists gen, n. eexists. split; [exact Hgen|]. split; [reflexivity|].
  destruct (db.insert_ok _ _ _) eqn:Eok; [|discriminate].
  injection H as <- <-. auto.
Qed.

(** ** The ids [get_by_id] reads *)

Lemma all_chars_impl (p q : ascii -> bool) str :
  (forall c, p c = true -> q c = true) ->
  all_chars p str = true -> all_chars q str = true.
Proof.
  intros Hpq. induction str as [|c str IH]; simpl; [reflexivity|].
  intros H. apply andb_true_iff in H as [Hc Hs].
  apply andb_true_iff. split; [now apply Hpq | now apply IH].
Qed.

Lemma is_decimal_isdigit c : is_decimal c = true -> isdigit_char c = true.
Proof. unfold isdigit_char. intros ->. reflexivity. Qed.

(** An id that reads as [z] passes the test of [get_by_id] and [int] gives [z]. *)
Lemma reads_as_int id z :
  reads_as id z ->
  (match id with PStr s => isdigit s | _ => false end
   || match id with PBool _ | PInt _ | PFloat _ => true | _ => false end) = true
  /\ int id = inr z.
Proof.
  destruct id as [|b|k|f|str|]; simpl; try contradiction.
  - intros ->. auto.
  - intros ->. auto.
  - intros H. auto.
  - intros (Hne & Hdec & ->). destruct str as [|c str]; [contradiction|].
    split.
    + rewrite orb_false_r. unfold isdigit.
      exact (all_chars_impl _ _ _ is_decimal_isdigit Hdec).
    + unfold int_of_str. now rewrite Hdec.
Qed.

Lemma head_filter_None {A} (P : A -> bool) (l : list A) :
  head (filter (fun x => P x) l) = None <-> forall x, x ∈ l -> P x = false.
Proof.
  induction l as [|a l IH].
  - split; [intros _ x H; inversion H | reflexivity].
  - rewrite filter_cons. destruct (decide (P a)) as [Ha|Ha].
    + split; [discriminate|]. intros H.
      specialize (H a (list_elem_of_here _ _)).
      apply Is_true_true in Ha. congruence.
    + rewrite IH. apply Is_true_false in Ha. split.
      * intros H x Hx. apply elem_of_cons in Hx as [->|Hx]; auto.
      * intros H x Hx. apply H. now right.
Qed.

Lemma head_filter_Some {A} (P : A -> bool) (l : list A) a :
  head (filter (fun x => P x) l) = Some a -> a ∈ l /\ P a = true.
Proof.
  intros H. assert (Hin : a ∈ filter (fun x => P x) l).
  { destruct (filter _ l) as [|b l']; [discriminate|].
    injection H as ->. left. }
  apply list_elem_of_filter in Hin as [Ha Hin].
  split; [exact Hin | now apply Is_true_true].
Qed.

(** C3, as the code has it: [get_by_id] returns null, and the session is
    untouched, for an id that is no string or number and for a string that
    [isdigit] rejects, which covers a negative number written as a string;
    for a number (negative or not) or a string of decimal digits whose
    integer value is [z], where the string has at most 4300 characters and
    [z] fits the 64 bits of a key, it returns null exactly when no stored
    record has the id [z], and otherwise a stored record whose id is [z].
    (A float without an integer value, a string with a superscript digit, a
    longer string and a larger number are not covered here: on these [int]
    or the storage raises.) *)
Theorem get_by_id_null_or_record (cls : entity) (id : pyobj) (s : session_state) :
  (unrecognised id -> BaseModel.get_by_id cls id s = Return None s)
  /\ (forall z, reads_as id z -> short id -> fits z ->
        exists found,
          BaseModel.get_by_id cls id s = Return found s
          /\ (found = None <-> forall r, r ∈ rows s -> cell r "id" <> VInt z)
          /\ (forall record, found = Some record ->
                exists r, r ∈ rows s /\ cell r "id" = VInt z
                          /\ record = db.entity_of r)).
Proof.
  split.
  - unfold BaseModel.get_by_id.
    destruct id as [|b|k|f|str|]; simpl; try contradiction; try reflexivity.
    intros ->. reflexivity.
  - intros z Hz _ _. apply reads_as_int in Hz as [Hguard Hint].
    unfold BaseModel.get_by_id. rewrite Hguard, Hint.
    unfold db.session_get. eexists. split; [reflexivity|]. split.
    + rewrite fmap_None, head_filter_None. unfold has_pk. split.
      * intros H r Hr Heq. specialize (H r Hr).
        now rewrite bool_decide_eq_false in H.
      * intros H r Hr. apply bool_decide_eq_false. now apply H.
    + intros record H. apply fmap_Some in H as (r & Hhead & ->).
      apply head_filter_Some in Hhead as [Hin Hpk].
      exists r. split; [exact Hin|]. split; [|reflexivity].
      unfold has_pk in Hpk. now apply bool_decide_eq_true in Hpk.
Qed.

(** C3 as the specification states it fails twice over.  A negative id that
    a stored record has is found: after [Student.create(id=-1, name="Ada")],
    [get_by_id(-1)] returns that record.  And [get_by_id(float("inf"))],
    which names no record, raises [OverflowError]. *)
Lemma soft_fail_claim_fails :
  (exists r, ModelCRUD.create Student true
               {[ "id" := VInt (-1); "name" := VStr "Ada" ]} empty_session
             = Return r negative_id_session)
  /\ ~ soft_fail_claim Student (PInt (-1)) negative_id_session
  /\ ~ soft_fail_claim Student (PFloat (S754_infinity false)) empty_session.
Proof.
  split; [eexists; vm_compute; reflexivity|]. split.
  - intros H. unfold soft_fail_claim in H.
    assert (Hneg : negative (PInt (-1))) by (simpl; lia).
    specialize (H (or_introl Hneg)). vm_compute in H. discriminate H.
  - intros H. unfold soft_fail_claim in H.
    assert (Hno : ~ names_record empty_session (PFloat (S754_infinity false))).
    { intros (z & r & Hz & _). simpl in Hz. discriminate Hz. }
    specialize (H (or_intror (or_intror Hno))). vm_compute in H. discriminate H.
Qed.

(** The ids the test of [get_by_id] lets through to an [int] that raises. *)
Lemma get_by_id_raises_on_non_finite_float cls s :
  BaseModel.get_by_id cls (PFloat (S754_infinity false)) s = Raise OverflowError s
  /\ BaseModel.get_by_id cls (PFloat (S754_infinity true)) s = Raise OverflowError s
  /\ BaseModel.get_by_id cls (PFloat S754_nan) s = Raise ValueError s.
Proof. repeat split. Qed.

Lemma get_by_id_raises_on_superscript_digit cls s :
  isdigit superscript_two = true
  /\ BaseModel.get_by_id cls (PStr superscript_two) s = Raise ValueError s.
Proof. split; reflexivity. Qed.

(** ** Queries *)

Lemma forallb_map_to_list (p : string -> bool) (kwargs : gmap string value) :
  forallb (fun kv => p kv.1) (map_to_list kwargs) = true
  <-> forall k, k ∈ dom kwargs -> p k = true.
Proof.
  rewrite forallb_forall. split.
  - intros H k Hk. apply elem_of_dom in Hk as [v Hv].
    apply elem_of_map_to_list, list_elem_of_In in Hv. exact (H _ Hv).
  - intros H [k v] Hin. apply list_elem_of_In, elem_of_map_to_list in Hin.
    apply H, elem_of_dom. eauto.
Qed.

Lemma select_kwargs cls kwargs s :
  (forall k, k ∈ dom kwargs -> has_column cls k = true) ->
  BaseModel.select cls [] kwargs s = Return (db.Build_Select (map_to_list kwargs) None) s.
Proof.
  intros Hcols. unfold BaseModel.select.
  rewrite (bind_Return _ _ _ _ _ eq_refl).
  case_bool_decide as Hempty.
  - subst kwargs. now rewrite map_to_list_empty.
  - unfold db.filter_by. apply forallb_map_to_list in Hcols. now rewrite Hcols.
Qed.

Lemma satisfies_kwargs kwargs lim r :
  db.satisfies (db.Build_Select (map_to_list kwargs) lim) r = true
  <-> map_Forall (fun k v => cell r k = v) kwargs.
Proof.
  unfold db.satisfies. simpl. rewrite forallb_forall, map_Forall_lookup. split.
  - intros H k v Hkv. apply elem_of_map_to_list, list_elem_of_In in Hkv.
    specialize (H _ Hkv). now apply bool_decide_eq_true in H.
  - intros H [k v] Hin. apply list_elem_of_In, elem_of_map_to_list in Hin.
    apply bool_decide_eq_true. now apply H.
Qed.

Lemma execute_kwargs kwargs lim s :
  db.execute (db.Build_Select (map_to_list kwargs) lim) s
  = Return (match lim with
            | Some n => take n (matching kwargs (rows s))
            | None => matching kwargs (rows s)
            end) s.
Proof.
  unfold db.execute, matching. simpl.
  rewrite (list_filter_iff _ (fun r => map_Forall (fun k v => cell r k = v) kwargs)).
  - reflexivity.
  - intros r. rewrite <- satisfies_kwargs. apply Is_true_true.
Qed.

Lemma matching_empty table : matching ∅ table = table.
Proof.
  unfold matching. induction table as [|r table IH]; [reflexivity|].
  rewrite filter_cons_True; [now rewrite IH | apply map_Forall_empty].
Qed.




Lemma select_all cls s :
  BaseModel.select cls [] ∅ s = Return (db.Build_Select (map_to_list (∅ : gmap string value)) None) s.
Proof.
  apply select_kwargs. intros k Hk. rewrite dom_empty_L in Hk.
  now apply not_elem_of_empty in Hk.
Qed.

(** A comprehension whose body always returns, and leaves the session
    alone, returns the list of the values. *)
Lemma mapM_pure {A B} (f : A -> M B) (g : A -> B) (l : list A) s :
  (forall x, x ∈ l -> f x s = Return (g x) s) ->
  mapM f l s = Return (map g l) s.
Proof.
  induction l as [|x l IH]; intros H; simpl; [reflexivity|].
  rewrite (bind_Return _ _ _ _ _ (H x (list_elem_of_here _ _))).
  rewrite (bind_Return _ _ _ _ _ (IH (fun y Hy => H y (list_elem_of_further _ _ _ Hy)))).
  reflexivity.
Qed.

Lemma has_column_name cls c :
  c ∈ table_columns cls -> has_column cls (Column.name c) = true.
Proof.
  intros Hc. unfold has_column. apply bool_decide_eq_true.
  apply list_elem_of_In, in_map, list_elem_of_In, Hc.
Qed.

Lemma getattr_loaded_column cls r c s :
  c ∈ table_columns cls ->
  getattr cls (db.entity_of r) (Column.name c) s = Return (cell r (Column.name c)) s.
Proof.
  intros Hc. unfold getattr, db.entity_of.
  rewrite lookup_empty, (has_column_name _ _ Hc). reflexivity.
Qed.

(** C9: with N rows in the table, [get_all] returns N results, one per row,
    and [get_table_as_list] returns N lists, one per row in the same order,
    each made of that row's values for the columns of [get_columns], in
    their order, so each as long as [get_columns]. *)
Theorem get_all_and_table_cover_the_rows (cls : entity) (s : session_state) :
  exists result table,
    BaseModel.get_all cls s = Return result s
    /\ result = map (fun r => [db.entity_of r]) (rows s)
    /\ length result = length (rows s)
    /\ BaseModel.get_table_as_list cls s = Return table s
    /\ table = map (fun r => map (fun c => cell r (Column.name c))
                               (BaseModel.get_columns cls)) (rows s)
    /\ length table = length (rows s)
    /\ (forall row, row ∈ table -> length row = length (BaseModel.get_columns cls)).
Proof.
  pose proof (select_all cls s) as Hsel.
  pose proof (execute_kwargs ∅ None s) as Hexec. rewrite matching_empty in Hexec.
  do 2 eexists. split; [|split; [reflexivity|split; [|split; [|split; [reflexivity|split]]]]].
  - unfold BaseModel.get_all. rewrite (bind_Return _ _ _ _ _ Hsel).
    rewrite (bind_Return _ _ _ _ _ Hexec). reflexivity.
  - now rewrite length_map.
  - assert (Hscalars : BaseModel.get_scalars cls [] None ∅ s
                       = Return (map db.entity_of (rows s)) s).
    { unfold BaseModel.get_scalars. rewrite (bind_Return _ _ _ _ _ Hsel).
      now rewrite (bind_Return _ _ _ _ _ Hexec). }
    unfold BaseModel.get_table_as_list.
    rewrite (bind_Return _ _ _ _ _ Hscalars).
    rewrite (mapM_pure _ (fun e => match e with
                                   | Persistent _ (Some r) _ =>
                                       map (fun c => cell r (Column.name c))
                                         (BaseModel.get_columns cls)
                                   | _ => []
                                   end)).
    + rewrite map_map. reflexivity.
    + intros e He. apply list_elem_of_In, in_map_iff in He as (r & <- & _).
      simpl. apply mapM_pure. intros c Hc. now apply getattr_loaded_column.
  - now rewrite length_map.
  - intros row Hrow. apply list_elem_of_In, in_map_iff in Hrow as (r & <- & _).
    now rewrite length_map.
Qed.

(** ** [update] *)

(** The loop of [update] merges the keyword arguments into the attributes
    assigned so far. *)
Lemma setattrs_persistent pk loaded assigned (kwargs : gmap string value) :
  map_fold (fun attr val self => setattr self attr val)
    (Persistent pk loaded assigned) kwargs
  = Persistent pk loaded (kwargs ∪ assigned).
Proof.
  apply (map_fold_weak_ind
           (fun r (m : gmap string value) => r = Persistent pk loaded (m ∪ assigned))).
  - now rewrite (left_id_L ∅ (∪)).
  - intros k v m r _ ->. simpl. now rewrite insert_union_l.
Qed.


(** A committed update of a persistent object, step by step. *)
Lemma update_persistent cls pk loaded assigned kwargs s :
  let a := kwargs ∪ assigned in
  let ch := db.changes cls loaded a in
  exists gen n,
    db.stamps Column.onupdate (fun k => negb (bool_decide (k ∈ dom ch)))
      (table_columns cls) s = Return gen (advance s n)
    /\ ModelCRUD.update cls (Persistent pk loaded assigned) true kwargs s
       = if bool_decide (ch = ∅)
         then Return (Persistent pk None (db.plain cls a))
                (SessionState (rows s) (rows s) (clock s) (reads s))
         else if db.pk_free pk (rows s) then Raise StaleDataError (advance s n)
         else if db.update_ok cls pk (rows s) ch
         then let rows' := map (fun r => if has_pk pk r then gen ∪ ch ∪ r else r) (rows s) in
              Return (Persistent (default pk (ch !! "id")) None (db.plain cls a))
                (SessionState rows' rows' (clock s) (reads s + n))
         else Raise IntegrityError (advance s n).
Proof.
  intros a ch.
  destruct (stamps_run Column.onupdate (fun k => negb (bool_decide (k ∈ dom ch)))
              (table_columns cls) s) as (gen & n & Hgen).
  exists gen, n. split; [exact Hgen|].
  unfold ModelCRUD.update. rewrite setattrs_persistent. fold a.
  unfold ModelCRUD.save. simpl. rewrite (bind_Return _ _ _ _ _ eq_refl).
  unfold ModelCRUD.commit, db.session_commit, db.flush. fold ch.
  destruct (bool_decide (ch = ∅)).
  - reflexivity.
  - unfold bind at 1. unfold bind at 1. rewrite Hgen. simpl.
    destruct (db.pk_free pk (rows s)); [reflexivity|].
    destruct (db.update_ok cls pk (rows s) ch); reflexivity.
Qed.

(** A committed [create], step by step. *)
Lemma create_run cls kwargs s :
  exists gen n,
    db.stamps Column.default (fun k => negb (supplied kwargs k)) (table_columns cls) s
    = Return gen (advance s n)
    /\ ModelCRUD.create cls true kwargs s
       = if forallb (fun kv => has_column cls kv.1) (map_to_list kwargs)
         then let row := db.persisted cls
                           (if supplied (gen ∪ kwargs) "id" then gen ∪ kwargs
                            else <["id" := VInt (db.next_id (rows s))]> (gen ∪ kwargs)) in
              if db.insert_ok cls (rows s) row
              then Return (Persistent (cell row "id") None ∅)
                     (SessionState (rows s ++ [row]) (rows s ++ [row]) (clock s) (reads s + n))
              else Raise IntegrityError (advance s n)
         else Raise TypeError s.
Proof.
  destruct (stamps_run Column.default (fun k => negb (supplied kwargs k))
              (table_columns cls) s) as (gen & n & Hgen).
  exists gen, n. split; [exact Hgen|].
  unfold ModelCRUD.create, construct.
  destruct (forallb _ _); [|reflexivity].
  rewrite (bind_Return _ _ _ _ _ eq_refl).
  unfold ModelCRUD.save, db.session_add, db.insert.
  unfold bind at 1. unfold bind at 1. rewrite Hgen. simpl.
  destruct (db.insert_ok _ _ _); [|reflexivity].
  now rewrite commit_fresh.
Qed.

(** ** Timestamps *)

Lemma stamps_app field due cols1 cols2 s :
  db.stamps field due (cols1 ++ cols2) s
  = bind (db.stamps field due cols1)
      (fun g1 => bind (db.stamps field due cols2) (fun g2 => ret (g1 ∪ g2))) s.
Proof.
  revert s. induction cols1 as [|c cols1 IH]; intros s; simpl.
  - unfold bind at 1. simpl. unfold bind.
    destruct (db.stamps field due cols2 s) as [g s'|e s']; [|reflexivity].
    unfold ret. now rewrite (left_id_L ∅ (∪)).
  - destruct (field c) as [[]|]; [destruct (due (Column.name c))|]; try apply IH.
    unfold bind, ret, db.generate. simpl. rewrite IH. unfold bind, ret.
    destruct (db.stamps field due cols1 _) as [g1 s1|e s1]; [|reflexivity].
    destruct (db.stamps field due cols2 s1) as [g2 s2|e s2]; [|reflexivity].
    now rewrite insert_union_l.
Qed.

Lemma timestamped_inv cls :
  timestamped cls = true ->
  table_columns cls = declared cls ++ TableModel_columns
  /\ ("created_at" ∉ map Column.name (declared cls))
  /\ ("updated_at" ∉ map Column.name (declared cls)).
Proof.
  unfold timestamped, table_columns. intros H.
  apply andb_true_iff in H as [H H3]. apply andb_true_iff in H as [H1 H2].
  apply negb_true_iff, bool_decide_eq_false in H1.
  apply negb_true_iff, bool_decide_eq_false in H2.
  apply negb_true_iff, bool_decide_eq_false in H3.
  split; [|auto].
  destruct (base cls); [contradiction | reflexivity | reflexivity].
Qed.

Lemma timestamped_has_columns cls :
  timestamped cls = true ->
  has_column cls "created_at" = true /\ has_column cls "updated_at" = true.
Proof.
  intros H. apply timestamped_inv in H as (Hcols & _ & _).
  unfold has_column. rewrite Hcols, map_app.
  split; apply bool_decide_eq_true, elem_of_app; right; simpl;
    [right; left | right; right; left].
Qed.

Lemma stamps_absent field due cols s g s' k :
  k ∉ map Column.name cols ->
  db.stamps field due cols s = Return g s' ->
  g !! k = None.
Proof.
  intros Hk Hrun. destruct (g !! k) as [v|] eqn:E; [|reflexivity].
  destruct (stamps_lookup _ _ _ _ _ _ _ _ Hrun E) as (_ & _ & c & Hc & Hn & _).
  exfalso. apply Hk. subst k. apply list_elem_of_In, in_map, list_elem_of_In, Hc.
Qed.

(** The defaults of a timestamped entity: after the readings [k] that the
    columns of the class body take, [created_at] takes the next reading of
    the clock and [updated_at] the one after. *)
Lemma stamps_default_timestamped cls due s gen s' :
  timestamped cls = true ->
  db.stamps Column.default due (table_columns cls) s = Return gen s' ->
  let k := readings Column.default due (declared cls) in
  gen !! "created_at"
  = (if due "created_at" then Some (VTime (clock s (reads s + k))) else None)
  /\ gen !! "updated_at"
     = (if due "updated_at"
        then Some (VTime (clock s (reads s + k + b2n (due "created_at"))))
        else None)
  /\ s' = advance s (k + b2n (due "created_at") + b2n (due "updated_at")).
Proof.
  intros Hts Hrun k. apply timestamped_inv in Hts as (Hcols & Hc & Hu).
  rewrite Hcols, stamps_app in Hrun.
  apply bind_inv in Hrun as (g1 & s1 & H1 & Hrun).
  apply bind_inv in Hrun as (g2 & s2 & H2 & Hrun).
  unfold ret in Hrun. injection Hrun as <- <-.
  pose proof (stamps_absent _ _ _ _ _ _ _ Hc H1) as Hc1.
  pose proof (stamps_absent _ _ _ _ _ _ _ Hu H1) as Hu1.
  destruct (stamps_readings Column.default due (declared cls) s) as (g1' & H1').
  rewrite H1 in H1'. injection H1' as <- ->. fold k in H2.
  rewrite !lookup_union_r by assumption.
  unfold TableModel_columns, db.stamps in H2. simpl in H2.
  unfold bind, ret, db.generate in H2. simpl in H2.
  destruct (due "created_at"), (due "updated_at"); simpl in H2;
    injection H2 as <- <-; simpl.
  - split; [reflexivity|]. split; [now rewrite Nat.add_1_r|].
    unfold advance. simpl. f_equal. lia.
  - split; [reflexivity|]. split; [reflexivity|].
    unfold advance. simpl. f_equal. lia.
  - split; [reflexivity|]. split; [now rewrite Nat.add_0_r|].
    unfold advance. simpl. f_equal. lia.
  - split; [reflexivity|]. split; [reflexivity|].
    unfold advance. simpl. f_equal. lia.
Qed.

(** The [onupdate] values of a timestamped entity: after the readings [k]
    that the columns of the class body take, [updated_at] takes the next
    reading of the clock; [created_at] has none. *)
Lemma stamps_onupdate_timestamped cls due s gen s' :
  timestamped cls = true ->
  db.stamps Column.onupdate due (table_columns cls) s = Return gen s' ->
  let k := readings Column.onupdate due (declared cls) in
  gen !! "created_at" = None
  /\ gen !! "updated_at"
     = (if due "updated_at" then Some (VTime (clock s (reads s + k))) else None)
  /\ s' = advance s (k + b2n (due "updated_at")).
Proof.
  intros Hts Hrun k. apply timestamped_inv in Hts as (Hcols & Hc & Hu).
  rewrite Hcols, stamps_app in Hrun.
  apply bind_inv in Hrun as (g1 & s1 & H1 & Hrun).
  apply bind_inv in Hrun as (g2 & s2 & H2 & Hrun).
  unfold ret in Hrun. injection Hrun as <- <-.
  pose proof (stamps_absent _ _ _ _ _ _ _ Hc H1) as Hc1.
  pose proof (stamps_absent _ _ _ _ _ _ _ Hu H1) as Hu1.
  destruct (stamps_readings Column.onupdate due (declared cls) s) as (g1' & H1').
  rewrite H1 in H1'. injection H1' as <- ->. fold k in H2.
  rewrite !lookup_union_r by assumption.
  unfold TableModel_columns, db.stamps in H2. simpl in H2.
  unfold bind, ret, db.generate in H2. simpl in H2.
  destruct (due "updated_at"); simpl in H2; injection H2 as <- <-; simpl.
  - split; [reflexivity|]. split; [reflexivity|].
    unfold advance. simpl. f_equal. lia.
  - split; [reflexivity|]. split; [reflexivity|].
    unfold advance. simpl. f_equal. lia.
Qed.

Lemma persisted_lookup cls (m : gmap string value) k :
  has_column cls k = true -> db.persisted cls m !! k = m !! k.
Proof.
  intros Hk. unfold db.persisted. apply option_eq. intros v.
  rewrite map_lookup_filter_Some. simpl. rewrite Hk. intuition.
Qed.

Lemma cell_persisted cls (m : gmap string value) k :
  has_column cls k = true -> cell (db.persisted cls m) k = cell m k.
Proof. intros Hk. unfold cell. now rewrite persisted_lookup. Qed.

Lemma changes_lookup_None cls loaded (a : gmap string value) k :
  a !! k = None -> db.changes cls loaded a !! k = None.
Proof.
  intros Hk. unfold db.changes. apply map_lookup_filter_None. left. exact Hk.
Qed.

Lemma plain_lookup_column cls (a : gmap string value) k :
  has_column cls k = true -> db.plain cls a !! k = None.
Proof.
  intros Hk. unfold db.plain. apply map_lookup_filter_None. right.
  intros v _. simpl. rewrite Hk. auto.
Qed.

Lemma advance_inj s n m : advance s n = advance s m -> n = m.
Proof. unfold advance. intros H. injection H as H. lia. Qed.

Lemma cell_insert_ne (m : gmap string value) k k' v :
  k <> k' -> cell (<[k := v]> m) k' = cell m k'.
Proof. intros H. unfold cell. now rewrite lookup_insert_ne. Qed.

(** Creation: the two timestamps are two successive readings of the clock,
    taken after those of the generated columns of the class body. *)
Lemma create_timestamps cls kwargs s r s' :
  timestamped cls = true ->
  supplied kwargs "created_at" = false ->
  supplied kwargs "updated_at" = false ->
  ModelCRUD.create cls true kwargs s = Return r s' ->
  let k := readings Column.default (fun c => negb (supplied kwargs c))
             (declared cls) in
  exists row,
    s' = SessionState (rows s ++ [row]) (rows s ++ [row]) (clock s)
           (reads s + (k + 2))
    /\ r = Persistent (cell row "id") None ∅
    /\ cell row "created_at" = VTime (clock s (reads s + k))
    /\ cell row "updated_at" = VTime (clock s (S (reads s + k))).
Proof.
  intros Hts Hc Hu Hrun k.
  destruct (create_run cls kwargs s) as (gen & n & Hgen & Heq).
  rewrite Heq in Hrun. clear Heq.
  destruct (forallb _ _); [|discriminate].
  cbv zeta in Hrun. destruct (db.insert_ok _ _ _); [|discriminate].
  destruct (stamps_default_timestamped _ _ _ _ _ Hts Hgen) as (Hgc & Hgu & Hn).
  fold k in Hgc, Hgu, Hn.
  apply advance_inj in Hn.
  rewrite Hc in Hgc, Hgu, Hn. rewrite Hu in Hgu, Hn. simpl in Hgc, Hgu, Hn.
  assert (Hn2 : n = k + 2) by lia. clear Hn. subst n.
  injection Hrun as <- <-.
  destruct (timestamped_has_columns _ Hts) as [Hcc Hcu].
  eexists. split; [reflexivity|]. split; [reflexivity|].
  rewrite !cell_persisted by assumption.
  assert (Hcell : forall c v, gen !! c = Some v -> c <> "id" ->
            cell (if supplied (gen ∪ kwargs) "id" then gen ∪ kwargs
                  else <["id" := VInt (db.next_id (rows s))]> (gen ∪ kwargs)) c = v).
  { intros c v Hk Hne.
    destruct (supplied (gen ∪ kwargs) "id");
      [|rewrite cell_insert_ne by congruence];
      unfold cell; now rewrite (lookup_union_Some_l _ _ _ _ Hk). }
  split; [apply Hcell; [exact Hgc | discriminate]|].
  rewrite Nat.add_1_r in Hgu. apply Hcell; [exact Hgu | discriminate].
Qed.

(** One committed update of a persistent record that names neither
    timestamp: every row keeps its [created_at]; the rows of the record
    get a new reading of the clock as [updated_at] when the flush emits an
    UPDATE, the one after the readings [k] that the [onupdate] columns of
    the class body take, and every other [updated_at] stays. *)
Lemma update_timestamps cls pk loaded assigned kwargs s r s' :
  timestamped cls = true ->
  (kwargs ∪ assigned) !! "created_at" = None ->
  (kwargs ∪ assigned) !! "updated_at" = None ->
  ModelCRUD.update cls (Persistent pk loaded assigned) true kwargs s = Return r s' ->
  let emitted := negb (bool_decide (db.changes cls loaded (kwargs ∪ assigned) = ∅)) in
  let k := readings Column.onupdate
             (fun c => negb (bool_decide
                               (c ∈ dom (db.changes cls loaded (kwargs ∪ assigned)))))
             (declared cls) in
  clock s' = clock s
  /\ reads s' = reads s + (if emitted then S k else 0)
  /\ durable s' = rows s'
  /\ (exists pk', r = Persistent pk' None (db.plain cls (kwargs ∪ assigned)))
  /\ length (rows s') = length (rows s)
  /\ forall i row, rows s !! i = Some row ->
       exists row', rows s' !! i = Some row'
         /\ cell row' "created_at" = cell row "created_at"
         /\ cell row' "updated_at"
            = if has_pk pk row && emitted then VTime (clock s (reads s + k))
              else cell row "updated_at".
Proof.
  intros Hts Hc Hu Hrun emitted k.
  destruct (update_persistent cls pk loaded assigned kwargs s) as (gen & n & Hgen & Heq).
  cbv zeta in Hgen, Heq. rewrite Heq in Hrun. clear Heq. subst emitted.
  destruct (bool_decide (db.changes cls loaded (kwargs ∪ assigned) = ∅)) eqn:Ech.
  - injection Hrun as <- <-. simpl.
    split; [reflexivity|]. split; [lia|]. split; [reflexivity|].
    split; [eauto|]. split; [reflexivity|].
    intros i row Hi. exists row. rewrite andb_false_r. auto.
  - destruct (db.pk_free pk (rows s)); [discriminate|].
    destruct (db.update_ok cls pk (rows s) _); [|discriminate].
    cbv zeta in Hrun. injection Hrun as <- <-. simpl.
    pose proof (changes_lookup_None cls loaded _ _ Hc) as Hchc.
    pose proof (changes_lookup_None cls loaded _ _ Hu) as Hchu.
    destruct (stamps_onupdate_timestamped _ _ _ _ _ Hts Hgen) as (Hgc & Hgu & Hn).
    fold k in Hgu, Hn.
    apply advance_inj in Hn.
    assert (Hdue : negb (bool_decide ("updated_at"
                     ∈ dom (db.changes cls loaded (kwargs ∪ assigned)))) = true).
    { apply negb_true_iff, bool_decide_eq_false. now apply not_elem_of_dom. }
    rewrite Hdue in Hgu, Hn. simpl in Hn.
    split; [reflexivity|]. split; [lia|]. split; [reflexivity|].
    split; [eauto|]. split; [apply length_map|].
    intros i row Hi.
    change (map ?f ?l) with (f <$> l). rewrite list_lookup_fmap, Hi. simpl.
    eexists. split; [reflexivity|].
    destruct (has_pk pk row); simpl; [|auto].
    unfold cell. split.
    + rewrite lookup_union_r; [reflexivity|]. now apply lookup_union_None_2.
    + rewrite (lookup_union_Some_l _ _ _ _ (lookup_union_Some_l _ _ _ _ Hgu)).
      reflexivity.
Qed.

(** Over any number of committed updates that name no timestamp, under a
    clock that never goes back: [created_at] stays and [updated_at] never
    decreases, row by row. *)
Lemma updates_timestamps cls us :
  timestamped cls = true ->
  Forall (fun u : gmap string value =>
            u !! "created_at" = None /\ u !! "updated_at" = None) us ->
  forall pk loaded assigned s r s',
    monotone s -> stamped s ->
    assigned !! "created_at" = None -> assigned !! "updated_at" = None ->
    updates cls (Persistent pk loaded assigned) us s = Return r s' ->
    forall i row, rows s !! i = Some row ->
      exists row' t t',
        rows s' !! i = Some row'
        /\ cell row' "created_at" = cell row "created_at"
        /\ cell row "updated_at" = VTime t
        /\ cell row' "updated_at" = VTime t'
        /\ (t <= t')%Z.
Proof.
  intros Hts Hus. induction Hus as [|u us [Huc Huu] _ IH];
    intros pk loaded assigned s r s' Hmono Hst Hac Hau Hrun i row Hi.
  - simpl in Hrun. unfold ret in Hrun. injection Hrun as <- <-.
    destruct (Hst row (list_elem_of_lookup_2 _ _ _ Hi)) as (j & _ & Hj).
    exists row, (clock s j), (clock s j). repeat split; auto; lia.
  - simpl in Hrun. apply bind_inv in Hrun as (r1 & s1 & Hstep & Hrun).
    assert (Hc : (u ∪ assigned) !! "created_at" = None) by now apply lookup_union_None_2.
    assert (Hu : (u ∪ assigned) !! "updated_at" = None) by now apply lookup_union_None_2.
    destruct (update_timestamps _ _ _ _ _ _ _ _ Hts Hc Hu Hstep)
      as (Hclock & Hreads & _ & (pk' & ->) & Hlen & Hrows).
    set (k := readings Column.onupdate _ (declared cls)) in Hreads, Hrows.
    destruct (timestamped_has_columns _ Hts) as [Hcc Hcu].
    assert (Hmono1 : monotone s1).
    { unfold monotone. rewrite Hclock. exact Hmono. }
    assert (Hst1 : stamped s1).
    { intros row1 Hin. apply list_elem_of_lookup in Hin as (m & Hm).
      assert (Hlt : m < length (rows s)).
      { rewrite <- Hlen. eapply lookup_lt_Some, Hm. }
      apply lookup_lt_is_Some in Hlt as [row0 Hrow0].
      destruct (Hrows m row0 Hrow0) as (row1' & Hm' & _ & Hup).
      rewrite Hm in Hm'. injection Hm' as <-.
      destruct (Hst row0 (list_elem_of_lookup_2 _ _ _ Hrow0)) as (j & Hj & Hcell).
      rewrite Hclock. destruct (has_pk pk row0 && _) eqn:E.
      - exists (reads s + k). split; [|exact Hup].
        apply andb_true_iff in E as [_ E]. rewrite E in Hreads. lia.
      - exists j. split; [|congruence].
        destruct (negb _) in Hreads; lia. }
    destruct (Hrows i row Hi) as (row1 & Hi1 & Hcreated & Hupdated).
    destruct (IH _ _ _ _ _ _ Hmono1 Hst1 (plain_lookup_column _ _ _ Hcc)
                (plain_lookup_column _ _ _ Hcu) Hrun i row1 Hi1)
      as (row' & t1 & t' & Hi' & Hcreated' & Ht1 & Ht' & Hle).
    destruct (Hst row (list_elem_of_lookup_2 _ _ _ Hi)) as (j & Hj & Hcell).
    exists row', (clock s j), t'. split; [exact Hi'|]. split; [congruence|].
    split; [exact Hcell|]. split; [exact Ht'|].
    rewrite Ht1 in Hupdated. destruct (has_pk pk row && _).
    + injection Hupdated as ->. specialize (Hmono j (reads s + k)). lia.
    + rewrite Hcell in Hupdated. injection Hupdated as ->. exact Hle.
Qed.

(** C7, as the code has it, for an entity type with the columns of
    [TableModel], which come after the columns of its own body.  (1) A
    record created without a value for either timestamp gets two successive
    readings of the clock, the first two after the readings that the
    generated columns of the class body take: [created_at] the first,
    [updated_at] the second.  (2) A committed update that names neither
    timestamp leaves the [created_at] of every row; when the flush emits an
    UPDATE (some column is assigned a value that differs from the loaded
    one, or the record had expired) it sets the [updated_at] of the
    record's rows to a new reading of the clock, the first after the
    readings that the [onupdate] columns of the class body take, and leaves
    every other [updated_at]; without an UPDATE it leaves every
    [updated_at].  (3) So, under a clock that never goes back, over a
    creation and any number of such updates, [created_at] keeps its value
    and [updated_at] never decreases. *)
Theorem timestamps_follow_the_clock (cls : entity) :
  timestamped cls = true ->
  (forall kwargs s r s',
      supplied kwargs "created_at" = false ->
      supplied kwargs "updated_at" = false ->
      ModelCRUD.create cls true kwargs s = Return r s' ->
      exists row,
        rows s' = rows s ++ [row]
        /\ cell row "created_at"
           = VTime (clock s (reads s
                             + readings Column.default
                                 (fun c => negb (supplied kwargs c)) (declared cls)))
        /\ cell row "updated_at"
           = VTime (clock s (S (reads s
                                + readings Column.default
                                    (fun c => negb (supplied kwargs c))
                                    (declared cls)))))
  /\ (forall pk loaded assigned kwargs s r s',
        (kwargs ∪ assigned) !! "created_at" = None ->
        (kwargs ∪ assigned) !! "updated_at" = None ->
        ModelCRUD.update cls (Persistent pk loaded assigned) true kwargs s = Return r s' ->
        length (rows s') = length (rows s)
        /\ forall i row, rows s !! i = Some row ->
             exists row', rows s' !! i = Some row'
               /\ cell row' "created_at" = cell row "created_at"
               /\ cell row' "updated_at"
                  = if has_pk pk row
                       && negb (bool_decide
                                  (db.changes cls loaded (kwargs ∪ assigned) = ∅))
                    then VTime (clock s
                                  (reads s
                                   + readings Column.onupdate
                                       (fun c => negb (bool_decide
                                          (c ∈ dom (db.changes cls loaded
                                                      (kwargs ∪ assigned)))))
                                       (declared cls)))
                    else cell row "updated_at")
  /\ (forall kwargs us s0 r1 s1 r2 s2,
        monotone s0 -> stamped s0 ->
        supplied kwargs "created_at" = false ->
        supplied kwargs "updated_at" = false ->
        Forall (fun u : gmap string value =>
                  u !! "created_at" = None /\ u !! "updated_at" = None) us ->
        ModelCRUD.create cls true kwargs s0 = Return r1 s1 ->
        updates cls r1 us s1 = Return r2 s2 ->
        forall i row1, rows s1 !! i = Some row1 ->
          exists row2 t1 t2,
            rows s2 !! i = Some row2
            /\ cell row2 "created_at" = cell row1 "created_at"
            /\ cell row1 "updated_at" = VTime t1
            /\ cell row2 "updated_at" = VTime t2
            /\ (t1 <= t2)%Z).
Proof.
  intros Hts. split; [|split].
  - intros kwargs s r s' Hc Hu Hrun.
    destruct (create_timestamps _ _ _ _ _ Hts Hc Hu Hrun)
      as (row & -> & _ & Hcreated & Hupdated).
    exists row. auto.
  - intros pk loaded assigned kwargs s r s' Hc Hu Hrun.
    destruct (update_timestamps _ _ _ _ _ _ _ _ Hts Hc Hu Hrun)
      as (_ & _ & _ & _ & Hlen & Hrows).
    split; [exact Hlen | exact Hrows].
  - intros kwargs us s0 r1 s1 r2 s2 Hmono Hst Hc Hu Hus Hcreate Hrun.
    destruct (create_timestamps _ _ _ _ _ Hts Hc Hu Hcreate)
      as (row & -> & -> & Hcreated & Hupdated).
    set (k := readings Column.default _ (declared cls)) in *.
    assert (Hst1 : stamped (SessionState (rows s0 ++ [row]) (rows s0 ++ [row])
                              (clock s0) (reads s0 + (k + 2)))).
    { intros row0 Hin. simpl in Hin. simpl.
      apply elem_of_app in Hin as [Hin|Hin].
      - destruct (Hst row0 Hin) as (j & Hj & Hcell). exists j. split; [lia | exact Hcell].
      - apply list_elem_of_singleton in Hin as ->.
        exists (S (reads s0 + k)). split; [lia | exact Hupdated]. }
    assert (Hmono1 : monotone (SessionState (rows s0 ++ [row]) (rows s0 ++ [row])
                                 (clock s0) (reads s0 + (k + 2)))) by exact Hmono.
    exact (updates_timestamps cls us Hts Hus _ _ _ _ _ _ Hmono1 Hst1
             (lookup_empty _) (lookup_empty _) Hrun).
Qed.

(** For [Student], whose own column [name] has no generator, the readings
    are the next two of the clock at creation and the next one at an
    update. *)
Lemma timestamps_follow_the_clock_witness :
  timestamped Student = true
  /\ (forall kwargs s r s',
        supplied kwargs "created_at" = false ->
        supplied kwargs "updated_at" = false ->
        ModelCRUD.create Student true kwargs s = Return r s' ->
        exists row,
          rows s' = rows s ++ [row]
          /\ cell row "created_at" = VTime (clock s (reads s + 0))
          /\ cell row "updated_at" = VTime (clock s (S (reads s + 0))))
  /\ (forall pk loaded assigned kwargs s r s',
        (kwargs ∪ assigned) !! "created_at" = None ->
        (kwargs ∪ assigned) !! "updated_at" = None ->
        ModelCRUD.update Student (Persistent pk loaded assigned) true kwargs s = Return r s' ->
        length (rows s') = length (rows s)
        /\ forall i row, rows s !! i = Some row ->
             exists row', rows s' !! i = Some row'
               /\ cell row' "created_at" = cell row "created_at"
               /\ cell row' "updated_at"
                  = if has_pk pk row
                       && negb (bool_decide
                                  (db.changes Student loaded (kwargs ∪ assigned) = ∅))
                    then VTime (clock s (reads s + 0))
                    else cell row "updated_at")
  /\ (forall kwargs us s0 r1 s1 r2 s2,
        monotone s0 -> stamped s0 ->
        supplied kwargs "created_at" = false ->
        supplied kwargs "updated_at" = false ->
        Forall (fun u : gmap string value =>
                  u !! "created_at" = None /\ u !! "updated_at" = None) us ->
        ModelCRUD.create Student true kwargs s0 = Return r1 s1 ->
        updates Student r1 us s1 = Return r2 s2 ->
        forall i row1, rows s1 !! i = Some row1 ->
          exists row2 t1 t2,
            rows s2 !! i = Some row2
            /\ cell row2 "created_at" = cell row1 "created_at"
            /\ cell row1 "updated_at" = VTime t1
            /\ cell row2 "updated_at" = VTime t2
            /\ (t1 <= t2)%Z).
Proof.
  split; [reflexivity|].
  exact (timestamps_follow_the_clock Student eq_refl).
Defined.

(** C7 as the specification states it fails: after
    [Student.create(name="Ada")] the two timestamps are the readings 0 and
    1 of the clock, not one value, and [update(created_at=100)] on the
    record replaces its [created_at]. *)
Lemma timestamp_claim_fails :
  (exists r1 s1 r2,
      ModelCRUD.create Student true {[ "name" := VStr "Ada" ]} empty_session
      = Return r1 s1
      /\ ModelCRUD.update Student r1 true {[ "created_at" := VTime 100 ]} s1
         = Return r2 backdated_session)
  /\ ~ timestamp_claim Student {[ "name" := VStr "Ada" ]}
        {[ "created_at" := VTime 100 ]} empty_session.
Proof.
  split.
  - do 3 eexists. split; vm_compute; reflexivity.
  - intros H.
    edestruct H as [_ Hcreated];
      [vm_compute; reflexivity | vm_compute; reflexivity
       | reflexivity | reflexivity |].
    vm_compute in Hcreated. discriminate Hcreated.
Qed.

(** ** The association upsert *)

Lemma natural_key_lookup cls (kwargs : gmap string value) k :
  natural_key cls kwargs !! k
  = if decide (k ∈ AssociationModel.fk_names cls) then kwargs !! k else None.
Proof.
  unfold natural_key. destruct (decide _) as [Hk|Hk].
  - apply option_eq. intros v. rewrite map_lookup_filter_Some. simpl. intuition.
  - apply map_lookup_filter_None. right. intros v _. exact Hk.
Qed.

Lemma natural_key_agree cls (f1 f2 : gmap string value) :
  (forall k, k ∈ AssociationModel.fk_names cls -> f1 !! k = f2 !! k) ->
  natural_key cls f1 = natural_key cls f2.
Proof.
  intros H. apply map_eq. intros k. rewrite !natural_key_lookup.
  destruct (decide _); auto.
Qed.

Lemma subdict_natural_key cls kwargs s :
  (forall k, k ∈ AssociationModel.fk_names cls -> is_Some (kwargs !! k)) ->
  AssociationModel.subdict kwargs (AssociationModel.fk_names cls) ∅ s
  = Return (natural_key cls kwargs) s.
Proof.
  intros H. destruct (subdict_present kwargs _ ∅ s H) as (d & -> & Hd).
  f_equal. apply map_eq. intros k. rewrite Hd, natural_key_lookup.
  destruct (decide _); [reflexivity | apply lookup_empty].
Qed.

Lemma fk_names_columns cls k :
  k ∈ AssociationModel.fk_names cls -> has_column cls k = true.
Proof.
  intros Hk. unfold has_column. apply bool_decide_eq_true.
  unfold AssociationModel.fk_names in Hk.
  apply list_elem_of_In, in_map_iff in Hk as (c & <- & Hc).
  apply filter_In in Hc as [Hc _].
  apply list_elem_of_In, in_map, Hc.
Qed.

Lemma natural_key_columns cls kwargs k :
  k ∈ dom (natural_key cls kwargs) -> has_column cls k = true.
Proof.
  intros Hk. apply elem_of_dom in Hk as [v Hv].
  rewrite natural_key_lookup in Hv. destruct (decide _) as [Hin|]; [|discriminate].
  now apply fk_names_columns.
Qed.

Lemma get_first_run cls key s :
  (forall k, k ∈ dom key -> has_column cls k = true) ->
  BaseModel.get_first cls key s
  = Return (db.entity_of <$> head (matching key (rows s))) s.
Proof.
  intros Hcols. unfold BaseModel.get_first.
  rewrite (bind_Return _ _ _ _ _ (select_kwargs cls key s Hcols)).
  rewrite (bind_Return _ _ _ _ _ (execute_kwargs _ _ _)).
  unfold ret, db.scalar, db.scalars. f_equal.
  now destruct (matching key (rows s)).
Qed.

(** The upsert of the code is the upsert of the specification. *)
Lemma create_or_update_as_specified cls kwargs s :
  (forall k, k ∈ AssociationModel.fk_names cls -> is_Some (kwargs !! k)) ->
  AssociationModel.create_or_update cls kwargs s = upsert_as_specified cls kwargs s.
Proof.
  intros H. unfold AssociationModel.create_or_update, upsert_as_specified.
  now rewrite (bind_Return _ _ _ _ _ (subdict_natural_key cls kwargs s H)).
Qed.

Lemma foldr_max_ge k0 ks k :
  k ∈ k0 :: ks -> (k <= foldr Z.max k0 ks)%Z.
Proof.
  induction ks as [|a ks IH]; intros Hk; simpl.
  - apply list_elem_of_singleton in Hk. lia.
  - apply elem_of_cons in Hk as [->|Hk].
    + specialize (IH (list_elem_of_here _ _)). lia.
    + apply elem_of_cons in Hk as [->|Hk]; [lia|].
      specialize (IH (list_elem_of_further _ _ _ Hk)). lia.
Qed.

(** The key the storage picks for a new row is in use by no row. *)
Lemma next_id_fresh table : db.pk_free (VInt (db.next_id table)) table = true.
Proof.
  unfold db.pk_free. apply forallb_forall. intros r Hr.
  apply negb_true_iff, bool_decide_eq_false. intros Hcell.
  assert (Hin : db.next_id table ∈ db.int_keys table).
  { unfold db.int_keys. apply list_elem_of_omap. exists r.
    split; [now apply list_elem_of_In | now rewrite Hcell]. }
  unfold db.next_id in Hin |- *.
  destruct (db.int_keys table) as [|k0 ks]; [inversion Hin|].
  apply foldr_max_ge in Hin. lia.
Qed.

(** A due column with a generator gets a value. *)
Lemma stamps_covers field due cols s g s' c gen :
  db.stamps field due cols s = Return g s' ->
  c ∈ cols -> field c = Some gen -> due (Column.name c) = true ->
  exists t, g !! Column.name c = Some (VTime t).
Proof.
  revert s g. induction cols as [|c0 cols IH]; intros s g Hrun Hc Hf Hd.
  - inversion Hc.
  - simpl in Hrun.
    destruct (decide (Column.name c0 = Column.name c
                      /\ field c0 <> None)) as [[Hn Hf0]|Hne].
    + destruct (field c0) as [[]|]; [|contradiction].
      rewrite Hn, Hd in Hrun.
      apply bind_inv in Hrun as (v & s1 & Hgen & Hrun).
      apply bind_inv in Hrun as (rest & s2 & _ & Hrun).
      unfold ret in Hrun. injection Hrun as <- <-.
      unfold db.generate in Hgen. injection Hgen as <- <-.
      rewrite lookup_insert_eq. eauto.
    + assert (Hin : c ∈ cols).
      { apply elem_of_cons in Hc as [->|Hc]; [|exact Hc].
        exfalso. apply Hne. split; [reflexivity | congruence]. }
      destruct (field c0) as [[]|] eqn:Ef0;
        [destruct (due (Column.name c0)) eqn:Ed0|]; try (eapply IH; eassumption).
      apply bind_inv in Hrun as (v & s1 & Hgen & Hrun).
      apply bind_inv in Hrun as (rest & s2 & Hrest & Hrun).
      unfold ret in Hrun. injection Hrun as <- <-.
      destruct (decide (Column.name c0 = Column.name c)) as [Heq|Hneq].
      * exfalso. apply Hne. split; [exact Heq | discriminate].
      * rewrite lookup_insert_ne by exact Hneq. eapply IH; eassumption.
Qed.

(** No generator touches a name that no generated column has. *)
Lemma stamps_not_generated cls field due s g s' k :
  (field = Column.default \/ field = Column.onupdate) ->
  generated cls k = false ->
  db.stamps field due (table_columns cls) s = Return g s' ->
  g !! k = None.
Proof.
  intros Hfield Hgen Hrun. destruct (g !! k) as [v|] eqn:E; [|reflexivity].
  destruct (stamps_lookup _ _ _ _ _ _ _ _ Hrun E) as (_ & _ & c & Hc & Hn & Hf).
  exfalso. unfold generated in Hgen.
  assert (Hex : existsb (fun c => bool_decide (Column.name c = k)
                          && (bool_decide (Column.default c <> None)
                              || bool_decide (Column.onupdate c <> None)))
                  (table_columns cls) = true).
  { apply existsb_exists. exists c. split; [now apply list_elem_of_In|].
    apply andb_true_iff. split; [now apply bool_decide_eq_true|].
    apply orb_true_iff.
    destruct Hfield as [->| ->]; [left | right]; now apply bool_decide_eq_true. }
  congruence.
Qed.

Lemma filter_map_commute {A} (P : A -> Prop) `{!forall x, Decision (P x)}
    (f : A -> A) (l : list A) :
  (forall x, P (f x) <-> P x) ->
  filter P (map f l) = map f (filter P l).
Proof.
  intros Hiff. induction l as [|x l IH]; [reflexivity|]. simpl.
  rewrite !filter_cons. destruct (decide (P x)) as [Hx|Hx].
  - rewrite decide_True by now apply Hiff. simpl. now rewrite IH.
  - rewrite decide_False by now rewrite Hiff. exact IH.
Qed.

(** What [acceptable] says, clause by clause. *)
Lemma acceptable_inv cls (fields : gmap string value) :
  acceptable cls fields = true ->
  (forall k v, fields !! k = Some v ->
     has_column cls k = true /\ k <> "id" /\ generated cls k = false
     /\ (v = VNone -> accepts_null cls k = true))
  /\ (forall c, c ∈ table_columns cls ->
        Column.nullable c = false -> Column.name c <> "id" ->
        Column.default c = None -> supplied fields (Column.name c) = true).
Proof.
  unfold acceptable. intros H. apply andb_true_iff in H as [H1 H2]. split.
  - intros k v Hkv. rewrite forallb_forall in H1.
    apply elem_of_map_to_list, list_elem_of_In in Hkv.
    specialize (H1 _ Hkv). simpl in H1.
    apply andb_true_iff in H1 as [H1 Hnull]. apply andb_true_iff in H1 as [H1 Hgen].
    apply andb_true_iff in H1 as [Hcol Hid].
    apply negb_true_iff, bool_decide_eq_false in Hid. apply negb_true_iff in Hgen.
    repeat split; auto. intros ->.
    apply orb_true_iff in Hnull as [Hn|Hn]; [|exact Hn].
    apply negb_true_iff, bool_decide_eq_false in Hn. contradiction.
  - intros c Hc Hnull Hid Hdef. rewrite forallb_forall in H2.
    specialize (H2 c (proj1 (list_elem_of_In _ _) Hc)).
    rewrite Hnull in H2. simpl in H2.
    apply orb_true_iff in H2 as [H2|H2]; [|exact H2].
    apply orb_true_iff in H2 as [H2|H2].
    + apply bool_decide_eq_true in H2. contradiction.
    + apply bool_decide_eq_true in H2. contradiction.
Qed.

Lemma association_inv cls :
  association cls = true ->
  base cls = FromAssociationModel
  /\ has_column cls "id" = true
  /\ generated cls "id" = false.
Proof.
  unfold association. intros H. apply andb_true_iff in H as [Hb Hid].
  apply bool_decide_eq_true in Hb.
  apply negb_true_iff, bool_decide_eq_false in Hid.
  assert (Hcols : table_columns cls = declared cls ++ TableModel_columns).
  { unfold table_columns. now rewrite Hb. }
  split; [exact Hb|]. split.
  - unfold has_column. rewrite Hcols, map_app.
    apply bool_decide_eq_true, elem_of_app. right. simpl. left.
  - unfold generated. destruct (existsb _ _) eqn:E; [|reflexivity]. exfalso.
    apply existsb_exists in E as (c & Hc & E). rewrite Hcols in Hc.
    apply andb_true_iff in E as [Hn Hg]. apply bool_decide_eq_true in Hn.
    apply in_app_or in Hc as [Hc|Hc].
    + apply Hid. rewrite <- Hn. apply list_elem_of_In, in_map, Hc.
    + simpl in Hc. destruct Hc as [<-|[<-|[<-|[]]]]; simpl in Hn, Hg; discriminate.
Qed.

Lemma plain_acceptable cls (fields : gmap string value) :
  acceptable cls fields = true -> db.plain cls fields = ∅.
Proof.
  intros H. apply acceptable_inv in H as [H _].
  apply map_empty. intros k. unfold db.plain. apply map_lookup_filter_None.
  destruct (fields !! k) as [v|] eqn:E; [right | now left].
  intros v' Hv'. simpl. destruct (H k v E) as (Hcol & _). rewrite Hcol. auto.
Qed.

(** Generated values never hide a supplied one. *)
Lemma supplied_union field due cols s gen s' (fields : gmap string value) k :
  db.stamps field due cols s = Return gen s' ->
  supplied fields k = true -> supplied (gen ∪ fields) k = true.
Proof.
  intros Hrun Hk. unfold supplied, cell in *.
  destruct (gen !! k) as [v|] eqn:E.
  - rewrite (lookup_union_Some_l _ _ _ _ E).
    destruct (stamps_lookup _ _ _ _ _ _ _ _ Hrun E) as (_ & (t & ->) & _).
    reflexivity.
  - now rewrite lookup_union_r.
Qed.

(** [create] with acceptable fields returns: the new row carries the
    fields and a key of its own. *)
Lemma create_accepted cls fields s :
  has_column cls "id" = true ->
  generated cls "id" = false ->
  acceptable cls fields = true ->
  exists row n,
    ModelCRUD.create cls true fields s
    = Return (Persistent (cell row "id") None ∅)
        (SessionState (rows s ++ [row]) (rows s ++ [row]) (clock s) (reads s + n))
    /\ (forall k v, fields !! k = Some v -> cell row k = v)
    /\ cell row "id" = VInt (db.next_id (rows s)).
Proof.
  intros Hidcol Hidgen Hacc.
  destruct (acceptable_inv _ _ Hacc) as [Hkeys Hreq].
  destruct (create_run cls fields s) as (gen & n & Hgen & Heq).
  rewrite Heq. clear Heq.
  assert (Hcols : forallb (fun kv => has_column cls kv.1) (map_to_list fields) = true).
  { apply forallb_map_to_list. intros k Hk. apply elem_of_dom in Hk as [v Hv].
    now destruct (Hkeys k v Hv). }
  rewrite Hcols.
  assert (Hfid : fields !! "id" = None).
  { destruct (fields !! "id") as [v|] eqn:E; [|reflexivity].
    destruct (Hkeys _ _ E) as (_ & Hne & _). contradiction. }
  assert (Hgid : gen !! "id" = None).
  { eapply stamps_not_generated; [left; reflexivity | exact Hidgen | exact Hgen]. }
  assert (Hsup : supplied (gen ∪ fields) "id" = false).
  { unfold supplied, cell. rewrite lookup_union_r, Hfid by exact Hgid. reflexivity. }
  rewrite Hsup. cbv zeta.
  set (row := db.persisted cls (<["id" := VInt (db.next_id (rows s))]> (gen ∪ fields))).
  assert (Hrowid : cell row "id" = VInt (db.next_id (rows s))).
  { unfold row. rewrite cell_persisted by exact Hidcol.
    unfold cell. now rewrite lookup_insert_eq. }
  assert (Hrow : forall k, has_column cls k = true -> k <> "id" ->
                   cell row k = cell (gen ∪ fields) k).
  { intros k Hk Hne. unfold row. rewrite cell_persisted by exact Hk.
    apply cell_insert_ne. congruence. }
  assert (Hok : db.insert_ok cls (rows s) row = true).
  { unfold db.insert_ok. rewrite Hrowid. simpl. rewrite next_id_fresh. simpl.
    apply forallb_forall. intros c Hc. apply list_elem_of_In in Hc.
    destruct (Column.nullable c) eqn:Enull; [reflexivity|]. simpl.
    destruct (decide (Column.name c = "id")) as [Hn|Hn].
    { unfold supplied. rewrite Hn, Hrowid. reflexivity. }
    unfold supplied. rewrite (Hrow _ (has_column_name _ _ Hc) Hn).
    fold (supplied (gen ∪ fields) (Column.name c)).
    destruct (supplied fields (Column.name c)) eqn:Es.
    - eapply supplied_union; eassumption.
    - destruct (Column.default c) as [g|] eqn:Ed.
      + destruct (stamps_covers _ _ _ _ _ _ c g Hgen Hc Ed) as (t & Ht).
        { now rewrite Es. }
        unfold supplied, cell. now rewrite (lookup_union_Some_l _ _ _ _ Ht).
      + rewrite (Hreq c Hc Enull Hn Ed) in Es. discriminate. }
  rewrite Hok. exists row, n. split; [reflexivity|]. split; [|exact Hrowid].
  intros k v Hkv. destruct (Hkeys k v Hkv) as (Hcol & Hne & Hg & _).
  rewrite (Hrow k Hcol Hne). unfold cell.
  rewrite lookup_union_r, Hkv; [reflexivity|].
  eapply stamps_not_generated; [left; reflexivity | exact Hg | exact Hgen].
Qed.

Lemma create_acceptable cls fields s :
  association cls = true ->
  acceptable cls fields = true ->
  exists row n,
    ModelCRUD.create cls true fields s
    = Return (Persistent (cell row "id") None ∅)
        (SessionState (rows s ++ [row]) (rows s ++ [row]) (clock s) (reads s + n))
    /\ forall k v, fields !! k = Some v -> cell row k = v.
Proof.
  intros Hassoc Hacc.
  destruct (association_inv _ Hassoc) as (_ & Hidcol & Hidgen).
  destruct (create_accepted cls fields s Hidcol Hidgen Hacc)
    as (row & n & Hrun & Hcarries & _).
  exists row, n. auto.
Qed.

(** ** The default [create_or_update] *)

Lemma commit_of_absent (kwargs : gmap string value) :
  kwargs !! "commit" = None ->
  commit_of kwargs = true /\ delete "commit" kwargs = kwargs.
Proof.
  intros H. unfold commit_of. rewrite H. split; [reflexivity|].
  now apply delete_id.
Qed.

(** C5, as the code has it.  For an entity type that is no association,
    [create_or_update] passes its keywords on to [create]: a [commit] key
    among them is the [commit] flag of [create], tested for truth, and not
    a field.  For a mapping without that key the call is [create] with
    [commit=True], the same result and the same session afterwards; and it
    makes no check for a duplicate: with an [id] column that the storage
    fills and fields the storage accepts, the call returns a record of a
    new committed row that carries the fields, and the same call once more
    returns a record of a second such row, with a key of its own. *)
Theorem create_or_update_is_unconditional_create
    (cls : entity) (kwargs : gmap string value) (s : session_state) :
  base cls <> FromAssociationModel ->
  create_or_update cls kwargs s
  = ModelCRUD.create cls (commit_of kwargs) (delete "commit" kwargs) s
  /\ (kwargs !! "commit" = None ->
      create_or_update cls kwargs s = ModelCRUD.create cls true kwargs s
      /\ (keyed cls = true -> acceptable cls kwargs = true ->
          exists row1 n1 row2 n2,
            create_or_update cls kwargs s
            = Return (Persistent (cell row1 "id") None ∅)
                (SessionState (rows s ++ [row1]) (rows s ++ [row1])
                   (clock s) (reads s + n1))
            /\ create_or_update cls kwargs
                 (SessionState (rows s ++ [row1]) (rows s ++ [row1])
                    (clock s) (reads s + n1))
               = Return (Persistent (cell row2 "id") None ∅)
                   (SessionState (rows s ++ [row1; row2]) (rows s ++ [row1; row2])
                      (clock s) (reads s + n1 + n2))
            /\ cell row2 "id" <> cell row1 "id"
            /\ forall k v, kwargs !! k = Some v ->
                 cell row1 k = v /\ cell row2 k = v)).
Proof.
  intros Hbase.
  assert (Heq : forall s0, create_or_update cls kwargs s0
                = ModelCRUD.create cls (commit_of kwargs) (delete "commit" kwargs) s0).
  { intros s0. unfold create_or_update, BaseModel.create_or_update.
    destruct (base cls); [reflexivity | reflexivity | contradiction]. }
  split; [apply Heq|].
  intros Hnone. destruct (commit_of_absent kwargs Hnone) as [Hflag Hsame].
  rewrite Hflag, Hsame in Heq.
  split; [apply Heq|].
  intros Hkeyed Hacc. unfold keyed in Hkeyed.
  apply andb_true_iff in Hkeyed as [Hidcol Hidgen]. apply negb_true_iff in Hidgen.
  destruct (create_accepted cls kwargs s Hidcol Hidgen Hacc)
    as (row1 & n1 & Hrun1 & Hcarries1 & Hid1).
  destruct (create_accepted cls kwargs
              (SessionState (rows s ++ [row1]) (rows s ++ [row1])
                 (clock s) (reads s + n1)) Hidcol Hidgen Hacc)
    as (row2 & n2 & Hrun2 & Hcarries2 & Hid2).
  simpl in Hrun2, Hid2. rewrite <- app_assoc in Hrun2. simpl in Hrun2.
  exists row1, n1, row2, n2.
  split; [now rewrite Heq|]. split; [now rewrite Heq|]. split.
  - intros Hsame_id.
    pose proof (next_id_fresh (rows s ++ [row1])) as Hfresh.
    unfold db.pk_free in Hfresh. rewrite forallb_forall in Hfresh.
    assert (Hin : In row1 (rows s ++ [row1])) by (apply in_or_app; right; now left).
    specialize (Hfresh row1 Hin). unfold has_pk in Hfresh.
    apply negb_true_iff, bool_decide_eq_false in Hfresh.
    apply Hfresh. now rewrite <- Hid2.
  - intros k v Hkv. split; [now apply Hcarries1 | now apply Hcarries2].
Qed.

(** [Student.create_or_update(name="Ada")] twice, on an empty table: two
    committed rows of that name. *)
Lemma create_or_update_is_unconditional_create_witness :
  exists row1 row2 s1 s2,
    create_or_update Student {[ "name" := VStr "Ada" ]} empty_session
    = Return (Persistent (cell row1 "id") None ∅) s1
    /\ create_or_update Student {[ "name" := VStr "Ada" ]} s1
       = Return (Persistent (cell row2 "id") None ∅) s2
    /\ durable s2 = [row1; row2]
    /\ cell row1 "name" = VStr "Ada"
    /\ cell row2 "name" = VStr "Ada"
    /\ cell row2 "id" <> cell row1 "id".
Proof.
  destruct (create_or_update_is_unconditional_create Student
              {[ "name" := VStr "Ada" ]} empty_session) as (_ & H);
    [discriminate|].
  destruct (H eq_refl) as (_ & Htwice).
  destruct (Htwice eq_refl eq_refl)
    as (row1 & n1 & row2 & n2 & H1 & H2 & Hne & Hcarries).
  exists row1, row2. do 2 eexists.
  split; [exact H1|]. split; [exact H2|]. split; [reflexivity|].
  split; [now apply Hcarries|]. split; [now apply Hcarries | exact Hne].
Defined.

(** C5 as the specification states it fails for a mapping with a [commit]
    key: [Student.create_or_update(commit=0, name="Ada")] returns a record
    and commits nothing, where [create] called with [commit=True] beside
    the same mapping is a [TypeError]. *)
Lemma create_claim_fails :
  (exists r s',
      create_or_update Student {[ "commit" := VInt 0; "name" := VStr "Ada" ]}
        empty_session = Return r s'
      /\ durable s' = [])
  /\ ModelCRUD.create Student true {[ "commit" := VInt 0; "name" := VStr "Ada" ]}
       empty_session = Raise TypeError empty_session
  /\ ~ create_claim Student {[ "commit" := VInt 0; "name" := VStr "Ada" ]}
         empty_session.
Proof.
  split; [do 2 eexists; split; [vm_compute; reflexivity | reflexivity]|].
  split; [vm_compute; reflexivity|].
  intros H. unfold create_claim in H. vm_compute in H. discriminate H.
Qed.

Lemma pk_free_false pk table r :
  r ∈ table -> has_pk pk r = true -> db.pk_free pk table = false.
Proof.
  intros Hr Hpk. unfold db.pk_free. destruct (forallb _ table) eqn:E; [|reflexivity].
  rewrite forallb_forall in E. specialize (E r (proj1 (list_elem_of_In _ _) Hr)).
  rewrite Hpk in E. discriminate.
Qed.

(** The changes of an update on a record just loaded: a field is left out
    exactly when the record already has its value. *)
Lemma changes_loaded cls r0 (fields : gmap string value) k v :
  fields !! k = Some v -> has_column cls k = true ->
  (cell r0 k = v -> db.changes cls (Some r0) fields !! k = None)
  /\ (cell r0 k <> v -> db.changes cls (Some r0) fields !! k = Some v).
Proof.
  intros Hkv Hcol. unfold db.changes. split; intros H.
  - apply map_lookup_filter_None. right. intros v' Hv'.
    rewrite Hkv in Hv'. injection Hv' as <-. simpl. rewrite Hcol. simpl.
    rewrite bool_decide_eq_true_2 by exact H. auto.
  - apply map_lookup_filter_Some. split; [exact Hkv|]. simpl. rewrite Hcol. simpl.
    rewrite bool_decide_eq_false_2 by exact H. exact I.
Qed.

(** [update] of a stored record with acceptable fields returns: the rows of
    the record take the assignments [g], which hold every field that
    differs and no field that the record already has. *)
Lemma update_acceptable cls fields r0 s :
  association cls = true ->
  acceptable cls fields = true ->
  r0 ∈ rows s ->
  exists g n,
    ModelCRUD.update cls (db.entity_of r0) true fields s
    = Return (Persistent (cell r0 "id") None ∅)
        (let rows' := map (fun r => if has_pk (cell r0 "id") r then g ∪ r else r) (rows s) in
         SessionState rows' rows' (clock s) (reads s + n))
    /\ (forall k v, fields !! k = Some v -> cell (g ∪ r0) k = v)
    /\ (forall k v, fields !! k = Some v -> cell r0 k = v -> g !! k = None)
    /\ g !! "id" = None.
Proof.
  intros Hassoc Hacc Hin.
  destruct (association_inv _ Hassoc) as (_ & Hidcol & Hidgen).
  destruct (acceptable_inv _ _ Hacc) as [Hkeys _].
  assert (Hfid : fields !! "id" = None).
  { destruct (fields !! "id") as [v|] eqn:E; [|reflexivity].
    destruct (Hkeys _ _ E) as (_ & Hne & _). contradiction. }
  unfold db.entity_of.
  destruct (update_persistent cls (cell r0 "id") (Some r0) ∅ fields s)
    as (gen & n & Hgen & Heq).
  cbv zeta in Hgen, Heq. rewrite (right_id_L ∅ (∪)) in Hgen, Heq.
  rewrite Heq. clear Heq. rewrite (plain_acceptable _ _ Hacc).
  set (ch := db.changes cls (Some r0) fields) in *.
  assert (Hchid : ch !! "id" = None) by now apply changes_lookup_None.
  destruct (bool_decide (ch = ∅)) eqn:Ech.
  - apply bool_decide_eq_true in Ech.
    exists ∅, 0. cbv zeta. split; [|split; [|split]].
    + f_equal. rewrite Nat.add_0_r.
      assert (Hmap : map (fun r : gmap string value =>
                            if has_pk (cell r0 "id") r then ∅ ∪ r else r) (rows s)
                     = rows s).
      { rewrite <- (map_id (rows s)) at 2. apply map_ext. intros r.
        destruct (has_pk _ r); [apply (left_id_L ∅ (∪)) | reflexivity]. }
      now rewrite Hmap.
    + intros k v Hkv. rewrite (left_id_L ∅ (∪)).
      destruct (Hkeys k v Hkv) as (Hcol & _).
      destruct (decide (cell r0 k = v)) as [Heq|Hne]; [exact Heq|].
      destruct (changes_loaded cls r0 fields k v Hkv Hcol) as [_ Hch].
      specialize (Hch Hne). fold ch in Hch. rewrite Ech, lookup_empty in Hch.
      discriminate.
    + intros. apply lookup_empty.
    + apply lookup_empty.
  - assert (Hgid : gen !! "id" = None).
    { eapply stamps_not_generated; [right; reflexivity | exact Hidgen | exact Hgen]. }
    rewrite (pk_free_false _ _ r0 Hin) by (unfold has_pk; now apply bool_decide_eq_true).
    assert (Hok : db.update_ok cls (cell r0 "id") (rows s) ch = true).
    { unfold db.update_ok. rewrite Hchid. simpl.
      apply forallb_forall. intros c Hc.
      destruct (Column.nullable c) eqn:Enull; [reflexivity|]. simpl.
      apply negb_true_iff, bool_decide_eq_false. intros Hnone.
      unfold ch, db.changes in Hnone.
      apply map_lookup_filter_Some in Hnone as [Hf _].
      destruct (Hkeys _ _ Hf) as (_ & _ & _ & Hnull).
      specialize (Hnull eq_refl). unfold accepts_null in Hnull.
      rewrite forallb_forall in Hnull. specialize (Hnull c Hc).
      rewrite Enull, orb_false_r in Hnull.
      apply negb_true_iff, bool_decide_eq_false in Hnull. contradiction. }
    rewrite Hok, Hchid. simpl.
    exists (gen ∪ ch), n. split; [reflexivity|]. split; [|split].
    + intros k v Hkv. destruct (Hkeys k v Hkv) as (Hcol & _ & Hg & _).
      assert (Hgk : gen !! k = None).
      { eapply stamps_not_generated; [right; reflexivity | exact Hg | exact Hgen]. }
      destruct (changes_loaded cls r0 fields k v Hkv Hcol) as [Hsame Hdiff].
      fold ch in Hsame, Hdiff. unfold cell.
      destruct (decide (cell r0 k = v)) as [Heq|Hne].
      * rewrite lookup_union_r; [exact Heq|].
        apply lookup_union_None_2; auto.
      * rewrite (lookup_union_Some_l _ _ _ v); [reflexivity|].
        rewrite lookup_union_r by exact Hgk. auto.
    + intros k v Hkv Hcell. destruct (Hkeys k v Hkv) as (Hcol & _ & Hg & _).
      apply lookup_union_None_2.
      * eapply stamps_not_generated; [right; reflexivity | exact Hg | exact Hgen].
      * now apply (changes_loaded cls r0 fields k v Hkv Hcol).
    + now apply lookup_union_None_2.
Qed.

(** One call of the association upsert with acceptable fields: the call
    returns a record, which afterwards is the first record of the natural
    key, carries the fields, and is committed; a row is added only when no
    record had the key, and a record found keeps its id. *)
Lemma upsert_step cls fields s :
  association cls = true ->
  acceptable cls fields = true ->
  (forall k, k ∈ AssociationModel.fk_names cls -> is_Some (fields !! k)) ->
  exists s' row,
    create_or_update cls fields s = Return (Persistent (cell row "id") None ∅) s'
    /\ head (matching (natural_key cls fields) (rows s')) = Some row
    /\ length (matching (natural_key cls fields) (rows s'))
       = Nat.max 1 (length (matching (natural_key cls fields) (rows s)))
    /\ (forall k v, fields !! k = Some v -> cell row k = v)
    /\ durable s' = rows s'
    /\ length (rows s')
       = length (rows s) + (1 - length (matching (natural_key cls fields) (rows s)))
    /\ (forall r0, head (matching (natural_key cls fields) (rows s)) = Some r0 ->
          cell row "id" = cell r0 "id").
Proof.
  intros Hassoc Hacc Hfk.
  destruct (association_inv _ Hassoc) as (Hbase & _ & _).
  unfold create_or_update. rewrite Hbase.
  rewrite (create_or_update_as_specified _ _ _ Hfk). unfold upsert_as_specified.
  rewrite (bind_Return _ _ _ _ _
             (get_first_run cls _ s (natural_key_columns cls fields))).
  set (key := natural_key cls fields) in *.
  assert (Hkey : forall k v, key !! k = Some v -> fields !! k = Some v).
  { intros k v H. unfold key in H. rewrite natural_key_lookup in H.
    now destruct (decide _). }
  destruct (matching key (rows s)) as [|r0 rest] eqn:Ematch.
  - change (db.entity_of <$> head []) with (@None instance). cbv beta iota.
    destruct (create_acceptable cls fields s Hassoc Hacc)
      as (row & n & Hrun & Hcarries).
    rewrite Hrun. eexists _, row. split; [reflexivity|]. simpl.
    assert (Hnew : matching key (rows s ++ [row]) = [row]).
    { unfold matching in *. rewrite filter_app, Ematch. simpl.
      rewrite filter_cons_True; [reflexivity|].
      apply map_Forall_lookup. intros k v Hk.
      apply Hcarries, Hkey, Hk. }
    rewrite Hnew.
    split; [reflexivity|]. split; [reflexivity|]. split; [exact Hcarries|].
    split; [reflexivity|]. split.
    + rewrite length_app. simpl. lia.
    + intros r0 Hr0. discriminate Hr0.
  - change (db.entity_of <$> head (r0 :: rest)) with (Some (db.entity_of r0)).
    cbv beta iota.
    assert (Hr0 : r0 ∈ rows s /\ map_Forall (fun k v => cell r0 k = v) key).
    { assert (Hin : r0 ∈ matching key (rows s)) by (rewrite Ematch; left).
      unfold matching in Hin. apply list_elem_of_filter in Hin. tauto. }
    destruct Hr0 as [Hin Hmatch].
    destruct (update_acceptable cls fields r0 s Hassoc Hacc Hin)
      as (g & n & Hrun & Hcarries & Hkept & Hgid).
    rewrite Hrun. cbv zeta. eexists _, (g ∪ r0).
    split; [f_equal; f_equal; unfold cell; now rewrite lookup_union_r|].
    simpl.
    assert (Hnew : matching key
                     (map (fun r => if has_pk (cell r0 "id") r then g ∪ r else r) (rows s))
                   = (g ∪ r0)
                     :: map (fun r => if has_pk (cell r0 "id") r then g ∪ r else r) rest).
    { unfold matching in *. rewrite (filter_map_commute _ _ (rows s)).
      - rewrite Ematch. simpl. unfold has_pk at 1.
        now rewrite bool_decide_eq_true_2.
      - intros r. destruct (has_pk (cell r0 "id") r); [|reflexivity].
        rewrite !map_Forall_lookup.
        assert (Hsame : forall k v, key !! k = Some v -> cell (g ∪ r) k = cell r k).
        { intros k v Hk. unfold cell. rewrite lookup_union_r; [reflexivity|].
          apply (Hkept k v (Hkey _ _ Hk)).
          now apply (map_Forall_lookup_1 _ _ _ _ Hmatch). }
        split; intros H k v Hk; specialize (H k v Hk);
          rewrite (Hsame k v Hk) in *; exact H. }
    rewrite Hnew.
    split; [reflexivity|]. split; [simpl; now rewrite length_map|].
    split; [exact Hcarries|]. split; [reflexivity|]. split.
    + rewrite length_map. simpl. lia.
    + intros r Hr. injection Hr as <-. unfold cell. now rewrite lookup_union_r.
Qed.

(** C1, as the code has it: for an association entity type and keyword
    arguments that give a value for every foreign-key name and have no
    [commit] key, [create_or_update] is the upsert of the specification:
    [get_first] looks up, by equality on exactly the foreign-key part of
    the arguments, the first stored record of that natural key; a record
    found is updated with all the arguments and returned, otherwise a
    record is created from them.  So two calls in a row with the same
    foreign-key values, with fields the storage accepts, both return the
    same record, which carries every field of the second call; the second
    call adds no row; the committed records of the key are as many as
    before the calls, or one when there was none: exactly one whenever the
    table held at most one record of the key. *)
Theorem association_upsert_by_natural_key
    (cls : entity) (fields1 : gmap string value) (s : session_state) :
  base cls = FromAssociationModel ->
  (forall k, k ∈ AssociationModel.fk_names cls -> is_Some (fields1 !! k)) ->
  fields1 !! "commit" = None ->
  create_or_update cls fields1 s = upsert_as_specified cls fields1 s
  /\ BaseModel.get_first cls (natural_key cls fields1) s
     = Return (db.entity_of <$> head (matching (natural_key cls fields1) (rows s))) s
  /\ forall fields2,
       association cls = true ->
       acceptable cls fields1 = true ->
       acceptable cls fields2 = true ->
       fields2 !! "commit" = None ->
       (forall k, k ∈ AssociationModel.fk_names cls -> fields2 !! k = fields1 !! k) ->
       exists s1 s2 row1 row2,
         create_or_update cls fields1 s
         = Return (Persistent (cell row1 "id") None ∅) s1
         /\ create_or_update cls fields2 s1
            = Return (Persistent (cell row2 "id") None ∅) s2
         /\ cell row2 "id" = cell row1 "id"
         /\ length (rows s2) = length (rows s1)
         /\ head (matching (natural_key cls fields1) (durable s2)) = Some row2
         /\ (forall k v, fields2 !! k = Some v -> cell row2 k = v)
         /\ length (matching (natural_key cls fields1) (durable s2))
            = Nat.max 1 (length (matching (natural_key cls fields1) (rows s)))
         /\ (length (matching (natural_key cls fields1) (rows s)) <= 1 ->
             matching (natural_key cls fields1) (durable s2) = [row2]).
Proof.
  intros Hbase Hfk _. split; [|split].
  - unfold create_or_update. rewrite Hbase.
    now apply create_or_update_as_specified.
  - apply get_first_run, natural_key_columns.
  - intros fields2 Hassoc Hacc1 Hacc2 _ Hagree.
    assert (Hkey : natural_key cls fields2 = natural_key cls fields1)
      by now apply natural_key_agree.
    assert (Hfk2 : forall k, k ∈ AssociationModel.fk_names cls -> is_Some (fields2 !! k)).
    { intros k Hk. rewrite (Hagree k Hk). now apply Hfk. }
    destruct (upsert_step cls fields1 s Hassoc Hacc1 Hfk)
      as (s1 & row1 & Hrun1 & Hhead1 & Hcount1 & _ & _ & _ & _).
    destruct (upsert_step cls fields2 s1 Hassoc Hacc2 Hfk2)
      as (s2 & row2 & Hrun2 & Hhead2 & Hcount2 & Hcarries & Hdur & Hlen & Hid).
    rewrite Hkey in Hhead2, Hcount2, Hlen, Hid.
    exists s1, s2, row1, row2.
    split; [exact Hrun1|]. split; [exact Hrun2|].
    split; [now apply Hid|]. split; [lia|].
    rewrite Hdur. split; [exact Hhead2|]. split; [exact Hcarries|].
    split; [lia|].
    intros Hone.
    destruct (matching (natural_key cls fields1) (rows s2)) as [|r [|r' rest]];
      [discriminate Hhead2 | injection Hhead2 as <-; reflexivity | simpl in Hcount2; lia].
Qed.

(** [Enrollment.create_or_update(student_id=1, course_id=2, grade="A")] and
    then the same with [grade="B"], on an empty table, leave one record,
    with the grade B. *)
Lemma association_upsert_by_natural_key_witness :
  exists s1 s2 row1 row2,
    create_or_update Enrollment
      {[ "student_id" := VInt 1; "course_id" := VInt 2; "grade" := VStr "A" ]}
      empty_session
    = Return (Persistent (cell row1 "id") None ∅) s1
    /\ create_or_update Enrollment
         {[ "student_id" := VInt 1; "course_id" := VInt 2; "grade" := VStr "B" ]} s1
       = Return (Persistent (cell row2 "id") None ∅) s2
    /\ cell row2 "id" = cell row1 "id"
    /\ length (rows s2) = length (rows s1)
    /\ matching (natural_key Enrollment
                   {[ "student_id" := VInt 1; "course_id" := VInt 2;
                      "grade" := VStr "A" ]}) (durable s2) = [row2]
    /\ cell row2 "grade" = VStr "B".
Proof.
  assert (Hfk : forall k, k ∈ AssociationModel.fk_names Enrollment ->
            is_Some (({[ "student_id" := VInt 1; "course_id" := VInt 2;
                         "grade" := VStr "A" ]} : gmap string value) !! k)).
  { intros k Hk. vm_compute in Hk.
    apply elem_of_cons in Hk as [->|Hk]; [eexists; reflexivity|].
    apply list_elem_of_singleton in Hk as ->. eexists; reflexivity. }
  destruct (association_upsert_by_natural_key Enrollment
              {[ "student_id" := VInt 1; "course_id" := VInt 2; "grade" := VStr "A" ]}
              empty_session eq_refl Hfk eq_refl) as (_ & _ & Htwice).
  destruct (Htwice {[ "student_id" := VInt 1; "course_id" := VInt 2;
                      "grade" := VStr "B" ]})
    as (s1 & s2 & row1 & row2 & H1 & H2 & Hid & Hlen & _ & Hcarries & _ & Hone).
  - reflexivity.
  - reflexivity.
  - reflexivity.
  - reflexivity.
  - intros k Hk. vm_compute in Hk.
    apply elem_of_cons in Hk as [->|Hk]; [reflexivity|].
    apply list_elem_of_singleton in Hk as ->. reflexivity.
  - exists s1, s2, row1, row2. repeat (split; [assumption|]).
    split; [apply Hone; simpl; lia | apply Hcarries; reflexivity].
Defined.

(** C1 as the specification states it fails on a table that holds the key
    twice, which [create] allows: after
    [Enrollment.create(student_id=1, course_id=2, grade="A")] twice, two
    calls of [create_or_update] with these foreign keys, the second with
    [grade="B"], update the first record and leave two committed records of
    the key. *)
Lemma upsert_claim_fails :
  exists r1 s1 r2 s2,
    ModelCRUD.create Enrollment true
      {[ "student_id" := VInt 1; "course_id" := VInt 2; "grade" := VStr "A" ]}
      empty_session = Return r1 s1
    /\ ModelCRUD.create Enrollment true
         {[ "student_id" := VInt 1; "course_id" := VInt 2; "grade" := VStr "A" ]}
         s1 = Return r2 s2
    /\ ~ upsert_claim Enrollment
           {[ "student_id" := VInt 1; "course_id" := VInt 2; "grade" := VStr "A" ]}
           {[ "student_id" := VInt 1; "course_id" := VInt 2; "grade" := VStr "B" ]}
           s2.
Proof.
  do 4 eexists. split; [vm_compute; reflexivity|].
  split; [vm_compute; reflexivity|].
  intros H.
  edestruct H as (row & Hrow & _);
    [vm_compute; reflexivity | vm_compute; reflexivity |].
  vm_compute in Hrow. discriminate Hrow.
Qed.

(** * Further properties of the code *)

(** ** Queries: conditions, ids, first record *)

(** X1: [select] and [get_scalars] pass their positional conditions on to
    [filter_by], which takes keywords only: with one condition or more both
    raise [TypeError], whatever the keywords and the cap, and the session
    is as before. *)
Theorem positional_conditions_raise_TypeError
    (cls : entity) (conditions : list db.clause) (limit : option nat)
    (kwargs : gmap string value) (s : session_state) :
  conditions <> [] ->
  BaseModel.select cls conditions kwargs s = Raise TypeError s
  /\ BaseModel.get_scalars cls conditions limit kwargs s = Raise TypeError s.
Proof.
  intros Hne. destruct conditions as [|c conditions]; [contradiction|].
  assert (Hsel : BaseModel.select cls (c :: conditions) kwargs s = Raise TypeError s).
  { unfold BaseModel.select. apply bind_Raise. reflexivity. }
  split; [exact Hsel|].
  unfold BaseModel.get_scalars. now apply bind_Raise.
Qed.

Lemma positional_conditions_raise_TypeError_witness :
  BaseModel.select Student [db.in_ "id" [VInt 1]] ∅ ada_session
  = Raise TypeError ada_session
  /\ BaseModel.get_scalars Student [db.in_ "id" [VInt 1]] None ∅ ada_session
     = Raise TypeError ada_session.
Proof.
  apply (positional_conditions_raise_TypeError Student [db.in_ "id" [VInt 1]]
           None ∅ ada_session).
  discriminate.
Defined.

(** X2: the ids on which [get_by_id] raises are exactly the floats without
    an integer value and the strings that [isdigit] accepts but [int] does
    not read: NaN gives [ValueError], an infinity [OverflowError], a string
    of digits with one that is no decimal digit [ValueError]; the session
    is as before.  On every other id [get_by_id] returns.  (The id is one
    that [int] and the storage take: a string id has at most 4300
    characters, and the integer value of the id, if it has one, fits the
    64 bits of a key.) *)
Theorem get_by_id_raises_exactly_on_unreadable_numbers
    (cls : entity) (id : pyobj) (s s' : session_state) (e : exn) :
  short id ->
  (forall z, reads_as id z -> fits z) ->
  BaseModel.get_by_id cls id s = Raise e s'
  <-> s' = s
      /\ ((id = PFloat S754_nan /\ e = ValueError)
          \/ (exists sign, id = PFloat (S754_infinity sign) /\ e = OverflowError)
          \/ (exists str, id = PStr str /\ isdigit str = true
                          /\ all_chars is_decimal str = false /\ e = ValueError)).
Proof.
  intros _ _. unfold BaseModel.get_by_id.
  destruct id as [|b|k|f|str|].
  - split; [discriminate|].
    intros (_ & [[H _]|[(? & H & _)|(? & H & _)]]); discriminate H.
  - split; [discriminate|].
    intros (_ & [[H _]|[(? & H & _)|(? & H & _)]]); discriminate H.
  - split; [discriminate|].
    intros (_ & [[H _]|[(? & H & _)|(? & H & _)]]); discriminate H.
  - destruct f as [sign|sign| |sign m ex].
    + split; [discriminate|].
      intros (_ & [[H _]|[(? & H & _)|(? & H & _)]]); discriminate H.
    + split.
      * intros H. injection H as <- <-. split; [reflexivity|].
        right. left. exists sign. auto.
      * intros (-> & [[H _]|[(? & _ & ->)|(? & H & _)]]);
          [discriminate H | reflexivity | discriminate H].
    + split.
      * intros H. injection H as <- <-. split; [reflexivity|]. left. auto.
      * intros (-> & [[_ ->]|[(? & H & _)|(? & H & _)]]);
          [reflexivity | discriminate H | discriminate H].
    + split; [discriminate|].
      intros (_ & [[H _]|[(? & H & _)|(? & H & _)]]); discriminate H.
  - rewrite orb_false_r. cbn [int]. unfold int_of_str.
    destruct (isdigit str) eqn:Edigit.
    + destruct str as [|c str]; [discriminate Edigit|].
      destruct (all_chars is_decimal (String c str)) eqn:Edec.
      * split; [discriminate|].
        intros (_ & [[H _]|[(? & H & _)|(str' & H & _ & Hdec & _)]]);
          try discriminate H.
        injection H as <-. congruence.
      * split.
        -- intros H. injection H as <- <-. split; [reflexivity|].
           right. right. eexists. eauto.
        -- intros (-> & [[H _]|[(? & H & _)|(? & _ & _ & _ & ->)]]);
             [discriminate H | discriminate H | reflexivity].
    + split; [discriminate|].
      intros (_ & [[H _]|[(? & H & _)|(str' & H & Hd & _)]]); try discriminate H.
      injection H as <-. congruence.
  - split; [discriminate|].
    intros (_ & [[H _]|[(? & H & _)|(? & H & _)]]); discriminate H.
Qed.

(** [get_by_id] on the string of the one character SUPERSCRIPT TWO. *)
Lemma get_by_id_raises_exactly_witness :
  BaseModel.get_by_id Student (PStr superscript_two) ada_session
  = Raise ValueError ada_session
  <-> ada_session = ada_session
      /\ ((PStr superscript_two = PFloat S754_nan /\ ValueError = ValueError)
          \/ (exists sign, PStr superscript_two = PFloat (S754_infinity sign)
                           /\ ValueError = OverflowError)
          \/ (exists str, PStr superscript_two = PStr str /\ isdigit str = true
                          /\ all_chars is_decimal str = false
                          /\ ValueError = ValueError)).
Proof.
  apply (get_by_id_raises_exactly_on_unreadable_numbers Student
           (PStr superscript_two) ada_session ada_session ValueError).
  - simpl. lia.
  - intros z (_ & Hdec & _). vm_compute in Hdec. discriminate Hdec.
Defined.

(** An id that reads as [z] is looked up as the key [z]. *)
Lemma get_by_id_reads cls id z s :
  reads_as id z -> BaseModel.get_by_id cls id s = db.session_get z s.
Proof.
  intros H. apply reads_as_int in H as [Hguard Hint].
  unfold BaseModel.get_by_id. now rewrite Hguard, Hint.
Qed.

(** X3: [get_by_id], [update_by_id] and [delete_by_id] see an id only
    through its integer value: two ids that read as the same integer (a
    number, a float with a fraction, a boolean, a string of decimal digits
    with or without leading zeros) give the same outcome and the same
    session, whatever the other arguments.  (A string id is taken to be
    short enough for [int] to read all its digits.) *)
Theorem ids_that_read_alike_name_the_same_record
    (cls : entity) (id1 id2 : pyobj) (z : Z) (commit_ : bool)
    (kwargs : gmap string value) (s : session_state) :
  short id1 -> short id2 ->
  reads_as id1 z -> reads_as id2 z ->
  BaseModel.get_by_id cls id1 s = BaseModel.get_by_id cls id2 s
  /\ BaseModel.update_by_id cls id1 commit_ kwargs s
     = BaseModel.update_by_id cls id2 commit_ kwargs s
  /\ BaseModel.delete_by_id cls id1 commit_ kwargs s
     = BaseModel.delete_by_id cls id2 commit_ kwargs s.
Proof.
  intros _ _ H1 H2.
  assert (Heq : BaseModel.get_by_id cls id1 s = BaseModel.get_by_id cls id2 s).
  { now rewrite (get_by_id_reads _ _ _ _ H1), (get_by_id_reads _ _ _ _ H2). }
  split; [exact Heq|].
  unfold BaseModel.update_by_id, BaseModel.delete_by_id, bind.
  rewrite Heq. split; reflexivity.
Qed.

(** The string ["007"] and the float 7.5 both name the record 7. *)
Lemma ids_that_read_alike_witness :
  BaseModel.get_by_id Student (PStr "007") ada_session
  = BaseModel.get_by_id Student (PFloat (S754_finite false 15 (-1))) ada_session
  /\ BaseModel.update_by_id Student (PStr "007") true ∅ ada_session
     = BaseModel.update_by_id Student (PFloat (S754_finite false 15 (-1))) true ∅
         ada_session
  /\ BaseModel.delete_by_id Student (PStr "007") true ∅ ada_session
     = BaseModel.delete_by_id Student (PFloat (S754_finite false 15 (-1))) true ∅
         ada_session.
Proof.
  apply (ids_that_read_alike_name_the_same_record Student (PStr "007")
           (PFloat (S754_finite false 15 (-1))) 7 true ∅ ada_session).
  - simpl. lia.
  - exact I.
  - simpl. split; [discriminate|]. split; reflexivity.
  - reflexivity.
Defined.



(** ** Round trips through the table *)

Lemma filter_pk_free pk table :
  db.pk_free pk table = true -> filter (fun r => has_pk pk r) table = [].
Proof.
  unfold db.pk_free. induction table as [|r table IH]; [reflexivity|].
  simpl. intros H. apply andb_true_iff in H as [Hr Htable].
  rewrite filter_cons_False; [now apply IH|].
  apply negb_true_iff in Hr. rewrite Hr. exact id.
Qed.

Lemma head_filter_new pk table row :
  db.pk_free pk table = true -> has_pk pk row = true ->
  head (filter (fun r => has_pk pk r) (table ++ [row])) = Some row.
Proof.
  intros Hfree Hrow. rewrite filter_app, (filter_pk_free _ _ Hfree). simpl.
  rewrite filter_cons_True; [reflexivity|]. now rewrite Hrow.
Qed.

(** X5: a record that [create] returns, called with [commit=True] and
    keywords that name columns, can be fetched by its id at once: the call
    appends one row, which is committed and whose id is an integer;
    [get_by_id] on that id returns the record of that row; the row holds
    every keyword argument that is not [None]; and every column of the
    returned object reads as the row has it.  (The keys of the table are
    keys the storage can hold.) *)
Theorem create_then_get_by_id
    (cls : entity) (kwargs : gmap string value)
    (s s' : session_state) (r : instance) :
  (forall k, k ∈ dom kwargs -> has_column cls k = true) ->
  storable (rows s') ->
  ModelCRUD.create cls true kwargs s = Return r s' ->
  exists key row,
    rows s' = rows s ++ [row]
    /\ durable s' = rows s'
    /\ cell row "id" = VInt key
    /\ BaseModel.get_by_id cls (PInt key) s' = Return (Some (db.entity_of row)) s'
    /\ (forall k v, kwargs !! k = Some v -> v <> VNone -> cell row k = v)
    /\ (forall k, has_column cls k = true ->
          getattr cls r k s' = Return (cell row k) s').
Proof.
  intros Hnames _ Hrun.
  destruct (create_run cls kwargs s) as (gen & n & Hgen & Heq).
  rewrite Heq in Hrun. clear Heq.
  destruct (forallb _ _) eqn:Ecols; [|discriminate].
  cbv zeta in Hrun.
  set (r0 := gen ∪ kwargs) in *.
  set (r1 := if supplied r0 "id" then r0
             else <["id" := VInt (db.next_id (rows s))]> r0) in *.
  set (row := db.persisted cls r1) in *.
  destruct (db.insert_ok cls (rows s) row) eqn:Eok; [|discriminate].
  injection Hrun as <- <-.
  unfold db.insert_ok in Eok.
  apply andb_true_iff in Eok as [Eok _]. apply andb_true_iff in Eok as [Hint Hfree].
  destruct (cell row "id") as [| key | |] eqn:Eid; try discriminate Hint.
  assert (Hpk : has_pk (VInt key) row = true).
  { unfold has_pk. now apply bool_decide_eq_true. }
  assert (Hhead : head (filter (fun r => has_pk (VInt key) r) (rows s ++ [row]))
                  = Some row) by now apply head_filter_new.
  exists key, row. split; [reflexivity|]. split; [reflexivity|].
  split; [exact Eid|]. split; [|split].
  - unfold BaseModel.get_by_id. simpl. unfold db.session_get. simpl.
    now rewrite Hhead.
  - intros k v Hkv Hv.
    assert (Hcol : has_column cls k = true).
    { apply Hnames, elem_of_dom. eauto. }
    assert (Hsup : supplied kwargs k = true).
    { unfold supplied, cell. rewrite Hkv. simpl.
      apply negb_true_iff, bool_decide_eq_false. exact Hv. }
    assert (Hgk : gen !! k = None).
    { destruct (gen !! k) as [w|] eqn:Egk; [|reflexivity].
      destruct (stamps_lookup _ _ _ _ _ _ _ _ Hgen Egk) as (Hdue & _).
      rewrite Hsup in Hdue. discriminate Hdue. }
    assert (Hr0 : r0 !! k = Some v).
    { unfold r0. now rewrite lookup_union_r. }
    unfold row. rewrite cell_persisted by exact Hcol.
    unfold r1. destruct (supplied r0 "id") eqn:Esid.
    + unfold cell. now rewrite Hr0.
    + destruct (decide (k = "id")) as [->|Hne].
      * unfold supplied, cell in Esid. rewrite Hr0 in Esid. simpl in Esid.
        apply negb_false_iff, bool_decide_eq_true in Esid. contradiction.
      * rewrite cell_insert_ne by congruence. unfold cell. now rewrite Hr0.
  - intros k Hcol. unfold getattr. rewrite lookup_empty, Hcol.
    simpl. now rewrite Hhead.
Qed.

(** [Student.create(name="Ada")] on an empty table. *)
Lemma create_then_get_by_id_witness :
  exists key row,
    rows ada_session = rows empty_session ++ [row]
    /\ durable ada_session = rows ada_session
    /\ cell row "id" = VInt key
    /\ BaseModel.get_by_id Student (PInt key) ada_session
       = Return (Some (db.entity_of row)) ada_session
    /\ (forall k v, ({[ "name" := VStr "Ada" ]} : gmap string value) !! k = Some v ->
          v <> VNone -> cell row k = v)
    /\ (forall k, has_column Student k = true ->
          getattr Student (Persistent (VInt 1) None ∅) k ada_session
          = Return (cell row k) ada_session).
Proof.
  apply (create_then_get_by_id Student {[ "name" := VStr "Ada" ]}
           empty_session ada_session (Persistent (VInt 1) None ∅)).
  - intros k Hk. apply elem_of_dom in Hk as [v Hv].
    apply lookup_singleton_Some in Hv as [<- _]. reflexivity.
  - intros row z Hrow Hz. apply list_elem_of_singleton in Hrow as ->.
    vm_compute in Hz. injection Hz as <-. unfold fits. lia.
  - vm_compute. reflexivity.
Defined.

(** What a successful lookup tells: the id reads as a key, and the record
    is the first row of that key. *)
Lemma get_by_id_found cls id s record s' :
  BaseModel.get_by_id cls id s = Return (Some record) s' ->
  exists key r,
    s' = s
    /\ int id = inr key
    /\ (forall s0, BaseModel.get_by_id cls id s0 = db.session_get key s0)
    /\ head (filter (fun r => has_pk (VInt key) r) (rows s)) = Some r
    /\ record = db.entity_of r
    /\ cell r "id" = VInt key
    /\ r ∈ rows s.
Proof.
  unfold BaseModel.get_by_id.
  destruct (_ || _) eqn:Eguard; [|discriminate].
  destruct (int id) as [e|key] eqn:Eint; [discriminate|].
  unfold db.session_get. intros H. injection H as H <-.
  apply fmap_Some in H as (r & Hhead & ->).
  exists key, r. split; [reflexivity|]. split; [reflexivity|].
  split; [reflexivity|]. split; [exact Hhead|]. split; [reflexivity|].
  apply head_filter_Some in Hhead as [Hin Hpk].
  unfold has_pk in Hpk. apply bool_decide_eq_true in Hpk. auto.
Qed.

Lemma filter_absorb {A} (P Q : A -> Prop)
    `{!forall x, Decision (P x)} `{!forall x, Decision (Q x)} (l : list A) :
  (forall x, P x -> Q x) -> filter P (filter Q l) = filter P l.
Proof.
  intros HPQ. induction l as [|a l IH]; [reflexivity|].
  rewrite (filter_cons Q), (filter_cons P).
  destruct (decide (Q a)) as [Hq|Hq], (decide (P a)) as [Hp|Hp].
  - rewrite filter_cons_True by exact Hp. now rewrite IH.
  - rewrite filter_cons_False by exact Hp. exact IH.
  - contradiction Hq. now apply HPQ.
  - exact IH.
Qed.

Lemma filter_length_lt {A} (P : A -> Prop) `{!forall x, Decision (P x)}
    (l : list A) (a : A) :
  a ∈ l -> ~ P a -> length (filter P l) < length l.
Proof.
  intros Hin Hna. induction l as [|b l IH]; [inversion Hin|].
  rewrite filter_cons. apply elem_of_cons in Hin as [<-|Hin].
  - destruct (decide (P a)); [contradiction|].
    pose proof (length_filter P l). simpl. lia.
  - specialize (IH Hin). destruct (decide (P b)); simpl; lia.
Qed.

(** X6: [delete_by_id] with [commit=True] on the id of a stored record
    removes it for good: the call returns, the rows left are the rows of
    every other id, in their order, and they are committed; the table is
    shorter; [get_by_id] on the same id now returns null, and a lookup of
    any other id gives what it gave before. *)
Theorem delete_by_id_then_get_by_id
    (cls : entity) (id : pyobj) (record : instance) (s : session_state) :
  BaseModel.get_by_id cls id s = Return (Some record) s ->
  exists key s',
    int id = inr key
    /\ BaseModel.delete_by_id cls id true ∅ s = Return tt s'
    /\ rows s' = filter (fun r => cell r "id" <> VInt key) (rows s)
    /\ durable s' = rows s'
    /\ length (rows s') < length (rows s)
    /\ BaseModel.get_by_id cls id s' = Return None s'
    /\ (forall other z found,
          reads_as other z -> z <> key ->
          BaseModel.get_by_id cls other s = Return found s ->
          BaseModel.get_by_id cls other s' = Return found s').
Proof.
  intros Hget.
  destruct (get_by_id_found _ _ _ _ _ Hget)
    as (key & r & _ & Hint & Hlookup & Hhead & -> & Hid & Hin).
  set (left := filter (fun r0 => cell r0 "id" <> VInt key) (rows s)).
  assert (Hleft : filter (fun r0 => negb (has_pk (VInt key) r0)) (rows s) = left).
  { apply list_filter_iff. intros r0. unfold has_pk.
    rewrite negb_True, bool_decide_spec. reflexivity. }
  exists key, (SessionState left left (clock s) (reads s)).
  split; [exact Hint|]. split; [|split; [reflexivity|split; [reflexivity|split; [|split]]]].
  - unfold BaseModel.delete_by_id. rewrite (bind_Return _ _ _ _ _ Hget).
    rewrite bool_decide_eq_true_2 by reflexivity.
    unfold ModelCRUD.delete, db.entity_of, db.session_delete.
    rewrite Hid. unfold bind at 1. rewrite Hleft. reflexivity.
  - simpl. apply filter_length_lt with (a := r); [exact Hin|]. tauto.
  - rewrite Hlookup. unfold db.session_get. simpl.
    assert (Hnone : head (filter (fun r0 => has_pk (VInt key) r0) left) = None).
    { apply head_filter_None. intros r0 Hr0. unfold left in Hr0.
      apply list_elem_of_filter in Hr0 as [Hne _].
      unfold has_pk. now apply bool_decide_eq_false. }
    now rewrite Hnone.
  - intros other z found Hz Hne.
    rewrite !(get_by_id_reads _ _ _ _ Hz). unfold db.session_get. simpl.
    assert (Hsame : filter (fun r0 => has_pk (VInt z) r0) left
                    = filter (fun r0 => has_pk (VInt z) r0) (rows s)).
    { unfold left. apply filter_absorb. intros r0 Hr0 Heq.
      unfold has_pk in Hr0. apply bool_decide_unpack in Hr0. congruence. }
    rewrite Hsame. intros H. injection H as <-. reflexivity.
Qed.

(** After [Student.create(name="Ada")], [Student.delete_by_id(id="1")]. *)
Lemma delete_by_id_then_get_by_id_witness :
  exists key s',
    int (PStr "1") = inr key
    /\ BaseModel.delete_by_id Student (PStr "1") true ∅ ada_session = Return tt s'
    /\ rows s' = filter (fun r => cell r "id" <> VInt key) (rows ada_session)
    /\ durable s' = rows s'
    /\ length (rows s') < length (rows ada_session)
    /\ BaseModel.get_by_id Student (PStr "1") s' = Return None s'
    /\ (forall other z found,
          reads_as other z -> z <> key ->
          BaseModel.get_by_id Student other ada_session = Return found ada_session ->
          BaseModel.get_by_id Student other s' = Return found s').
Proof.
  apply (delete_by_id_then_get_by_id Student (PStr "1")
           (db.entity_of {[ "id" := VInt 1; "name" := VStr "Ada";
                            "created_at" := VTime 0; "updated_at" := VTime 1 ]})
           ada_session).
  vm_compute. reflexivity.
Defined.

(** X7: [delete_by_id] hands its extra keywords to [delete], which takes
    none: with any extra keyword the call raises and deletes nothing, with
    [TypeError] when the record exists. *)
Theorem delete_by_id_takes_no_keywords
    (cls : entity) (id : pyobj) (commit_ : bool) (kwargs : gmap string value)
    (s : session_state) :
  kwargs <> ∅ ->
  exists e,
    BaseModel.delete_by_id cls id commit_ kwargs s = Raise e s
    /\ (forall record, BaseModel.get_by_id cls id s = Return (Some record) s ->
          e = TypeError).
Proof.
  intros Hne. unfold BaseModel.delete_by_id.
  destruct (get_by_id_state cls id s) as [[[record|] Hr]|[e He]].
  - exists TypeError. split; [|reflexivity].
    rewrite (bind_Return _ _ _ _ _ Hr).
    now rewrite bool_decide_eq_false_2 by exact Hne.
  - exists AttributeError. split; [|intros record H; congruence].
    now rewrite (bind_Return _ _ _ _ _ Hr).
  - exists e. split; [|intros record H; congruence].
    now apply bind_Raise.
Qed.

Lemma delete_by_id_takes_no_keywords_witness :
  exists e,
    BaseModel.delete_by_id Student (PInt 1) true {[ "force" := VInt 1 ]} ada_session
    = Raise e ada_session
    /\ (forall record,
          BaseModel.get_by_id Student (PInt 1) ada_session
          = Return (Some record) ada_session ->
          e = TypeError).
Proof.
  apply (delete_by_id_takes_no_keywords Student (PInt 1) true
           {[ "force" := VInt 1 ]} ada_session).
  apply insert_non_empty.
Defined.

Lemma head_filter_map_pk key (f : gmap string value -> gmap string value) table r :
  (forall r0, has_pk (VInt key) (f r0) = has_pk (VInt key) r0) ->
  head (filter (fun r0 => has_pk (VInt key) r0) table) = Some r ->
  head (filter (fun r0 => has_pk (VInt key) r0) (map f table)) = Some (f r).
Proof.
  intros Hf H. rewrite (filter_map_commute _ f table).
  - destruct (filter _ table) as [|r0 l]; [discriminate|].
    injection H as ->. reflexivity.
  - intros r0. now rewrite Hf.
Qed.

(** X8: after [update_by_id] with [commit=True] has returned, [get_by_id]
    on the same id returns the record with the new values: every keyword
    that names a column without a generator reads back as given.  The
    table keeps its length, the rows of other ids are as before, and the
    rows are committed.  (The keywords can hold no [id]: the method takes
    it as a parameter of its own.) *)
Theorem update_by_id_then_get_by_id
    (cls : entity) (id : pyobj) (record : instance) (kwargs : gmap string value)
    (s s' : session_state) :
  generated cls "id" = false ->
  (forall k, k ∈ dom kwargs -> has_column cls k = true) ->
  kwargs !! "id" = None ->
  BaseModel.get_by_id cls id s = Return (Some record) s ->
  BaseModel.update_by_id cls id true kwargs s = Return tt s' ->
  exists key record',
    int id = inr key
    /\ BaseModel.get_by_id cls id s' = Return (Some record') s'
    /\ (forall k v, kwargs !! k = Some v -> generated cls k = false ->
          getattr cls record' k s' = Return v s')
    /\ length (rows s') = length (rows s)
    /\ durable s' = rows s'
    /\ (forall i r, rows s !! i = Some r -> cell r "id" <> VInt key ->
          rows s' !! i = Some r).
Proof.
  intros Hidgen Hcols Hnoid Hget Hrun.
  destruct (get_by_id_found _ _ _ _ _ Hget)
    as (key & r & _ & Hint & Hlookup & Hhead & -> & Hid & Hin).
  unfold BaseModel.update_by_id in Hrun.
  rewrite (bind_Return _ _ _ _ _ Hget) in Hrun.
  apply bind_inv in Hrun as (r' & s1 & Hrun & Hret).
  unfold ret in Hret. injection Hret as <-.
  unfold db.entity_of in Hrun. rewrite Hid in Hrun.
  destruct (update_persistent cls (VInt key) (Some r) ∅ kwargs s)
    as (gen & n & Hgen & Heq).
  cbv zeta in Hgen, Heq. rewrite (right_id_L ∅ (∪)) in Hgen, Heq.
  rewrite Heq in Hrun. clear Heq.
  set (ch := db.changes cls (Some r) kwargs) in *.
  assert (Hchid : ch !! "id" = None) by now apply changes_lookup_None.
  assert (Hread : forall row k s0, has_column cls k = true ->
            getattr cls (db.entity_of row) k s0 = Return (cell row k) s0).
  { intros row k s0 Hk. unfold getattr, db.entity_of.
    now rewrite lookup_empty, Hk. }
  exists key.
  destruct (bool_decide (ch = ∅)) eqn:Ech.
  - apply bool_decide_eq_true in Ech. injection Hrun as _ <-.
    exists (db.entity_of r). split; [exact Hint|]. split; [|split; [|auto]].
    + rewrite Hlookup. unfold db.session_get. simpl. now rewrite Hhead.
    + intros k v Hkv _.
      assert (Hk : has_column cls k = true) by (apply Hcols, elem_of_dom; eauto).
      rewrite (Hread r k _ Hk). f_equal.
      destruct (decide (cell r k = v)) as [Hsame|Hdiff]; [exact Hsame|].
      destruct (changes_loaded cls r kwargs k v Hkv Hk) as [_ Hch].
      specialize (Hch Hdiff). fold ch in Hch. rewrite Ech, lookup_empty in Hch.
      discriminate Hch.
  - destruct (db.pk_free (VInt key) (rows s)); [discriminate|].
    destruct (db.update_ok cls (VInt key) (rows s) ch); [|discriminate].
    cbv zeta in Hrun. injection Hrun as _ <-.
    assert (Hgid : gen !! "id" = None).
    { eapply stamps_not_generated; [right; reflexivity | exact Hidgen | exact Hgen]. }
    set (f := fun r0 : gmap string value =>
                if has_pk (VInt key) r0 then gen ∪ ch ∪ r0 else r0).
    assert (Hf : forall r0, has_pk (VInt key) (f r0) = has_pk (VInt key) r0).
    { intros r0. unfold f. destruct (has_pk (VInt key) r0) eqn:E; [|exact E].
      unfold has_pk in *. apply bool_decide_eq_true in E.
      apply bool_decide_eq_true. unfold cell in *.
      rewrite lookup_union_r; [exact E|]. now apply lookup_union_None_2. }
    assert (Hfr : f r = gen ∪ ch ∪ r).
    { unfold f. unfold has_pk. now rewrite bool_decide_eq_true_2. }
    exists (db.entity_of (f r)). split; [exact Hint|]. split; [|split; [|split; [|split]]].
    + rewrite Hlookup. unfold db.session_get. simpl.
      now rewrite (head_filter_map_pk key f (rows s) r Hf Hhead).
    + intros k v Hkv Hg.
      assert (Hk : has_column cls k = true) by (apply Hcols, elem_of_dom; eauto).
      rewrite (Hread (f r) k _ Hk). f_equal. rewrite Hfr.
      assert (Hgk : gen !! k = None).
      { eapply stamps_not_generated; [right; reflexivity | exact Hg | exact Hgen]. }
      destruct (changes_loaded cls r kwargs k v Hkv Hk) as [Hsame Hdiff].
      fold ch in Hsame, Hdiff. unfold cell.
      destruct (decide (cell r k = v)) as [Heq|Hne].
      * rewrite lookup_union_r; [exact Heq|]. apply lookup_union_None_2; auto.
      * rewrite (lookup_union_Some_l _ _ _ v); [reflexivity|].
        rewrite lookup_union_r by exact Hgk. auto.
    + simpl. now rewrite length_map.
    + reflexivity.
    + intros i r0 Hi Hne. simpl. rewrite list_lookup_fmap, Hi. simpl. f_equal.
      unfold f, has_pk. now rewrite bool_decide_eq_false_2.
Qed.

(** After [Student.create(name="Ada")],
    [Student.update_by_id(id=1, name="Grace")]. *)
Lemma update_by_id_then_get_by_id_witness :
  exists s' key record',
    BaseModel.update_by_id Student (PInt 1) true {[ "name" := VStr "Grace" ]} ada_session
    = Return tt s'
    /\ int (PInt 1) = inr key
    /\ BaseModel.get_by_id Student (PInt 1) s' = Return (Some record') s'
    /\ (forall k v, ({[ "name" := VStr "Grace" ]} : gmap string value) !! k = Some v ->
          generated Student k = false ->
          getattr Student record' k s' = Return v s')
    /\ length (rows s') = length (rows ada_session)
    /\ durable s' = rows s'
    /\ (forall i r, rows ada_session !! i = Some r -> cell r "id" <> VInt key ->
          rows s' !! i = Some r).
Proof.
  eexists.
  assert (Hrun : BaseModel.update_by_id Student (PInt 1) true
                   {[ "name" := VStr "Grace" ]} ada_session
                 = Return tt
                     (SessionState
                        [ {[ "id" := VInt 1; "name" := VStr "Grace";
                             "created_at" := VTime 0; "updated_at" := VTime 2 ]} ]
                        [ {[ "id" := VInt 1; "name" := VStr "Grace";
                             "created_at" := VTime 0; "updated_at" := VTime 2 ]} ]
                        (fun n => Z.of_nat n) 3)).
  { vm_compute. reflexivity. }
  assert (Hcols : forall k, k ∈ dom ({[ "name" := VStr "Grace" ]} : gmap string value) ->
                     has_column Student k = true).
  { intros k Hk. apply elem_of_dom in Hk as [v Hv].
    apply lookup_singleton_Some in Hv as [<- _]. reflexivity. }
  assert (Hget : BaseModel.get_by_id Student (PInt 1) ada_session
                 = Return (Some (db.entity_of
                                   {[ "id" := VInt 1; "name" := VStr "Ada";
                                      "created_at" := VTime 0;
                                      "updated_at" := VTime 1 ]})) ada_session).
  { vm_compute. reflexivity. }
  destruct (update_by_id_then_get_by_id Student (PInt 1) _
              {[ "name" := VStr "Grace" ]} ada_session _
              eq_refl Hcols eq_refl Hget Hrun) as (key & record' & H).
  exists key, record'. split; [exact Hrun | exact H].
Defined.

(** ** Changes that are not committed *)



(** ** The commit flag and failed calls *)

(** [save] of a new object, step by step. *)
Lemma save_transient cls attrs commit_ s :
  exists gen n,
    db.stamps Column.default (fun k => negb (supplied attrs k)) (table_columns cls) s
    = Return gen (advance s n)
    /\ ModelCRUD.save cls (Transient attrs) commit_ s
       = let row := db.persisted cls
                      (if supplied (gen ∪ attrs) "id" then gen ∪ attrs
                       else <["id" := VInt (db.next_id (rows s))]> (gen ∪ attrs)) in
         if db.insert_ok cls (rows s) row
         then Return (Persistent (cell row "id")
                        (if commit_ then None else Some row) ∅)
                (SessionState (rows s ++ [row])
                   (if commit_ then rows s ++ [row] else durable s)
                   (clock s) (reads s + n))
         else Raise IntegrityError (advance s n).
Proof.
  destruct (stamps_run Column.default (fun k => negb (supplied attrs k))
              (table_columns cls) s) as (gen & n & Hgen).
  exists gen, n. split; [exact Hgen|].
  unfold ModelCRUD.save, db.session_add, db.insert.
  unfold bind at 1. unfold bind at 1. rewrite Hgen. simpl.
  destruct (db.insert_ok _ _ _); [|reflexivity].
  destruct commit_; [now rewrite commit_fresh | reflexivity].
Qed.

(** A committing [save] of a persistent object is an [update] without
    keywords. *)
Lemma save_persistent cls pk loaded assigned s :
  ModelCRUD.save cls (Persistent pk loaded assigned) true s
  = ModelCRUD.update cls (Persistent pk loaded assigned) true ∅ s.
Proof. unfold ModelCRUD.update. now rewrite map_fold_empty. Qed.

Lemma untouched_refl s : untouched s s.
Proof. repeat split. Qed.

Lemma untouched_advance s n : untouched s (advance s n).
Proof. repeat split. Qed.

(** What a [save] does to the tables: when it returns, the rows are durable
    exactly when it commits; when it raises, both tables are as before. *)
Lemma save_summary cls self commit_ s :
  match ModelCRUD.save cls self commit_ s with
  | Return _ s' => durable s' = (if commit_ then rows s' else durable s)
  | Raise _ s' => untouched s s'
  end.
Proof.
  destruct self as [attrs|pk loaded assigned|pk].
  - destruct (save_transient cls attrs commit_ s) as (gen & n & _ & ->).
    cbv zeta. destruct (db.insert_ok _ _ _); [|apply untouched_advance].
    destruct commit_; reflexivity.
  - destruct commit_; [|reflexivity].
    rewrite save_persistent.
    destruct (update_persistent cls pk loaded assigned ∅ s) as (gen & n & _ & ->).
    cbv zeta. destruct (bool_decide _); [reflexivity|].
    destruct (db.pk_free _ _); [apply untouched_advance|].
    destruct (db.update_ok _ _ _ _); [reflexivity | apply untouched_advance].
  - apply untouched_refl.
Qed.

Lemma update_summary cls self commit_ kwargs s :
  match ModelCRUD.update cls self commit_ kwargs s with
  | Return _ s' => durable s' = (if commit_ then rows s' else durable s)
  | Raise _ s' => untouched s s'
  end.
Proof.
  unfold ModelCRUD.update. cbv zeta.
  destruct commit_; [apply save_summary | reflexivity].
Qed.

Lemma create_summary cls commit_ kwargs s :
  match ModelCRUD.create cls commit_ kwargs s with
  | Return _ s' => durable s' = (if commit_ then rows s' else durable s)
  | Raise _ s' => untouched s s'
  end.
Proof.
  unfold ModelCRUD.create, construct.
  destruct (forallb _ _).
  - rewrite (bind_Return _ _ _ _ _ eq_refl). apply save_summary.
  - rewrite (bind_Raise _ _ _ _ _ eq_refl). apply untouched_refl.
Qed.

Lemma delete_summary cls self commit_ s :
  match ModelCRUD.delete cls self commit_ s with
  | Return _ s' => durable s' = (if commit_ then rows s' else durable s)
  | Raise _ s' => untouched s s'
  end.
Proof.
  unfold ModelCRUD.delete.
  destruct self as [attrs|pk loaded assigned|pk], commit_;
    try reflexivity; apply untouched_refl.
Qed.

(** X10: the [commit] flag decides what is durable.  When [create],
    [update] or [delete] returns, the committed table is the table of the
    session if the call was made with [commit=True], and is what it was
    before the call if it was made with [commit=False]. *)
Theorem commit_flag_decides_durability
    (cls : entity) (commit_ : bool) (s s' : session_state) :
  (forall kwargs r,
      ModelCRUD.create cls commit_ kwargs s = Return r s' ->
      durable s' = if commit_ then rows s' else durable s)
  /\ (forall self kwargs r,
        ModelCRUD.update cls self commit_ kwargs s = Return r s' ->
        durable s' = if commit_ then rows s' else durable s)
  /\ (forall self u,
        ModelCRUD.delete cls self commit_ s = Return u s' ->
        durable s' = if commit_ then rows s' else durable s).
Proof.
  split; [|split].
  - intros kwargs r H. pose proof (create_summary cls commit_ kwargs s) as Hsum.
    now rewrite H in Hsum.
  - intros self kwargs r H.
    pose proof (update_summary cls self commit_ kwargs s) as Hsum.
    now rewrite H in Hsum.
  - intros self u H. pose proof (delete_summary cls self commit_ s) as Hsum.
    now rewrite H in Hsum.
Qed.

(** The computations that only read. *)
Lemma get_by_id_final cls id s : final (BaseModel.get_by_id cls id s) = s.
Proof.
  destruct (get_by_id_state cls id s) as [[r ->]|[e ->]]; reflexivity.
Qed.

Lemma subdict_final kwargs names acc s :
  final (AssociationModel.subdict kwargs names acc s) = s.
Proof.
  revert acc. induction names as [|k names IH]; intros acc; simpl; [reflexivity|].
  destruct (kwargs !! k); [apply IH | reflexivity].
Qed.

Lemma select_final cls kwargs s : final (BaseModel.select cls [] kwargs s) = s.
Proof.
  unfold BaseModel.select. rewrite (bind_Return _ _ _ _ _ eq_refl).
  case_bool_decide; [reflexivity|].
  unfold db.filter_by, bind. destruct (forallb _ _); reflexivity.
Qed.

Lemma get_first_final cls kwargs s : final (BaseModel.get_first cls kwargs s) = s.
Proof.
  unfold BaseModel.get_first, bind.
  pose proof (select_final cls kwargs s) as Hsel.
  destruct (BaseModel.select cls [] kwargs s) as [q s1|e s1]; simpl in Hsel; subst s1;
    reflexivity.
Qed.

(** X11: a call that raises commits nothing.  Whenever [create],
    [update], [delete], [create_or_update], [update_by_id] or
    [delete_by_id] fails, the committed rows are what they were before the
    call. *)
Theorem failed_calls_commit_nothing
    (cls : entity) (s s' : session_state) (e : exn) :
  (forall commit_ kwargs,
      ModelCRUD.create cls commit_ kwargs s = Raise e s' -> durable s' = durable s)
  /\ (forall self commit_ kwargs,
        ModelCRUD.update cls self commit_ kwargs s = Raise e s' ->
        durable s' = durable s)
  /\ (forall self commit_,
        ModelCRUD.delete cls self commit_ s = Raise e s' -> durable s' = durable s)
  /\ (forall kwargs,
        create_or_update cls kwargs s = Raise e s' -> durable s' = durable s)
  /\ (forall id commit_ kwargs,
        BaseModel.update_by_id cls id commit_ kwargs s = Raise e s' ->
        durable s' = durable s)
  /\ (forall id commit_ kwargs,
        BaseModel.delete_by_id cls id commit_ kwargs s = Raise e s' ->
        durable s' = durable s).
Proof.
  assert (Hcreate : forall commit_ kwargs,
            ModelCRUD.create cls commit_ kwargs s = Raise e s' ->
            durable s' = durable s).
  { intros commit_ kwargs H. pose proof (create_summary cls commit_ kwargs s) as Hsum.
    rewrite H in Hsum. apply Hsum. }
  assert (Hupdate : forall self commit_ kwargs,
            ModelCRUD.update cls self commit_ kwargs s = Raise e s' ->
            durable s' = durable s).
  { intros self commit_ kwargs H.
    pose proof (update_summary cls self commit_ kwargs s) as Hsum.
    rewrite H in Hsum. apply Hsum. }
  assert (Hdelete : forall self commit_,
            ModelCRUD.delete cls self commit_ s = Raise e s' ->
            durable s' = durable s).
  { intros self commit_ H. pose proof (delete_summary cls self commit_ s) as Hsum.
    rewrite H in Hsum. apply Hsum. }
  split; [exact Hcreate|]. split; [exact Hupdate|]. split; [exact Hdelete|].
  split; [|split].
  - intros kwargs. unfold create_or_update, BaseModel.create_or_update.
    destruct (base cls); try apply Hcreate.
    unfold AssociationModel.create_or_update, bind.
    pose proof (subdict_final kwargs (AssociationModel.fk_names cls) ∅ s) as Hsub.
    destruct (AssociationModel.subdict _ _ _ s) as [d s1|e1 s1];
      simpl in Hsub; subst s1; [|intros [= _ <-]; reflexivity].
    pose proof (get_first_final cls d s) as Hfirst.
    destruct (BaseModel.get_first cls d s) as [[record|] s1|e1 s1];
      simpl in Hfirst; subst s1;
      [apply Hupdate | apply Hcreate | intros [= _ <-]; reflexivity].
  - intros id commit_ kwargs. unfold BaseModel.update_by_id, bind.
    pose proof (get_by_id_final cls id s) as Hget.
    destruct (BaseModel.get_by_id cls id s) as [[record|] s1|e1 s1];
      simpl in Hget; subst s1; try (intros [= _ <-]; reflexivity).
    destruct (ModelCRUD.update cls record commit_ kwargs s) as [r s1|e1 s1] eqn:E;
      [discriminate|].
    intros [= -> ->]. now apply (Hupdate record commit_ kwargs).
  - intros id commit_ kwargs. unfold BaseModel.delete_by_id, bind.
    pose proof (get_by_id_final cls id s) as Hget.
    destruct (BaseModel.get_by_id cls id s) as [[record|] s1|e1 s1];
      simpl in Hget; subst s1; try (intros [= _ <-]; reflexivity).
    case_bool_decide; [apply Hdelete | intros [= _ <-]; reflexivity].
Qed.

(** [Student.create(id=1, name="Grace")] on the table that holds Ada under
    the key 1 raises [IntegrityError], and [Student.update_by_id(7,
    name="Grace")], which finds no record, raises [AttributeError]: the
    committed table is still Ada's row. *)
Lemma failed_calls_commit_nothing_witness :
  (exists s',
      ModelCRUD.create Student true {[ "id" := VInt 1; "name" := VStr "Grace" ]}
        ada_session = Raise IntegrityError s'
      /\ durable s' = durable ada_session)
  /\ (exists s',
        BaseModel.update_by_id Student (PInt 7) true {[ "name" := VStr "Grace" ]}
          ada_session = Raise AttributeError s'
        /\ durable s' = durable ada_session).
Proof.
  split.
  - eexists. split; [vm_compute; reflexivity|].
    apply (proj1 (failed_calls_commit_nothing Student ada_session _ IntegrityError)
             true {[ "id" := VInt 1; "name" := VStr "Grace" ]}).
    vm_compute. reflexivity.
  - eexists. split; [vm_compute; reflexivity|].
    apply (proj1 (proj2 (proj2 (proj2 (proj2
             (failed_calls_commit_nothing Student ada_session _ AttributeError)))))
             (PInt 7) true {[ "name" := VStr "Grace" ]}).
    vm_compute. reflexivity.
Defined.

(** ** Primary keys *)

Lemma keeps_bind {A B} (I : session_state -> Prop) (m : M A) (k : A -> M B) :
  keeps I m -> (forall a, keeps I (k a)) -> keeps I (bind m k).
Proof.
  intros Hm Hk s Hs. unfold bind. specialize (Hm s Hs).
  destruct (m s) as [a s1|e s1]; simpl in Hm; [now apply Hk | exact Hm].
Qed.

Lemma keeps_ret {A} (I : session_state -> Prop) (a : A) : keeps I (ret a).
Proof. intros s Hs. exact Hs. Qed.

Lemma keeps_raise {A} (I : session_state -> Prop) (e : exn) : keeps I (@raise A e).
Proof. intros s Hs. exact Hs. Qed.

Lemma keeps_final {A} (I : session_state -> Prop) (m : M A) :
  (forall s, final (m s) = s) -> keeps I m.
Proof. intros H s Hs. now rewrite H. Qed.

Lemma pk_free_not_in pk table :
  db.pk_free pk table = true -> pk ∉ map (fun r => cell r "id") table.
Proof.
  unfold db.pk_free. intros H Hin.
  apply list_elem_of_In, in_map_iff in Hin as (r & Hr & Hin).
  rewrite forallb_forall in H. specialize (H r Hin).
  unfold has_pk in H. rewrite bool_decide_eq_true_2 in H by exact Hr.
  discriminate H.
Qed.

Lemma NoDup_rename {A} `{EqDecision A} (x y : A) (l : list A) :
  NoDup l -> (y = x \/ y ∉ l) ->
  NoDup (map (fun z => if decide (z = x) then y else z) l).
Proof.
  induction l as [|a l IH]; [intros; apply NoDup_nil_2|].
  intros Hnd Hy. apply NoDup_cons in Hnd as [Ha Hnd]. simpl.
  assert (Hy' : y = x \/ y ∉ l).
  { destruct Hy as [Hy|Hy]; [now left | right].
    intros Hin. apply Hy. now right. }
  apply NoDup_cons_2; [|now apply IH].
  intros Hin. apply list_elem_of_In, in_map_iff in Hin as (z & Hz & Hin).
  apply list_elem_of_In in Hin.
  destruct (decide (a = x)) as [->|Hax], (decide (z = x)) as [->|Hzx].
  - contradiction.
  - subst z. destruct Hy as [->|Hy]; [contradiction|].
    apply Hy. now right.
  - subst a. destruct Hy as [->|Hy]; [contradiction|].
    apply Hy. now left.
  - subst z. contradiction.
Qed.

Lemma keys_unique_update cls pk table gen (ch : gmap string value) :
  gen !! "id" = None ->
  db.update_ok cls pk table ch = true ->
  keys_unique table ->
  keys_unique (map (fun r => if has_pk pk r then gen ∪ ch ∪ r else r) table).
Proof.
  intros Hg Hok Hu. unfold keys_unique in *. rewrite map_map.
  set (newpk := default pk (ch !! "id")).
  assert (Heq : map (fun r => cell (if has_pk pk r then gen ∪ ch ∪ r else r) "id") table
                = map (fun z => if decide (z = pk) then newpk else z)
                    (map (fun r => cell r "id") table)).
  { rewrite map_map. apply map_ext. intros r. unfold has_pk.
    destruct (decide (cell r "id" = pk)) as [E|E].
    - rewrite bool_decide_eq_true_2 by exact E. unfold newpk, cell.
      destruct (ch !! "id") as [k|] eqn:Ec.
      + rewrite (lookup_union_Some_l _ _ _ k); [reflexivity|].
        now rewrite lookup_union_r.
      + rewrite lookup_union_r by now apply lookup_union_None_2.
        exact E.
    - now rewrite bool_decide_eq_false_2. }
  rewrite Heq. apply NoDup_rename; [exact Hu|].
  unfold db.update_ok in Hok. apply andb_true_iff in Hok as [Hid _].
  unfold newpk. destruct (ch !! "id") as [k|]; simpl; [|now left].
  apply andb_true_iff in Hid as [_ Hid]. apply orb_true_iff in Hid as [Hid|Hid].
  - left. now apply bool_decide_eq_true in Hid.
  - right. now apply pk_free_not_in.
Qed.

Lemma keys_unique_filter (P : gmap string value -> Prop)
    `{!forall r, Decision (P r)} table :
  keys_unique table -> keys_unique (filter P table).
Proof.
  unfold keys_unique. induction table as [|r table IH]; [trivial|].
  simpl. intros Hnd. apply NoDup_cons in Hnd as [Hr Hnd].
  rewrite filter_cons. destruct (decide (P r)); [|now apply IH].
  simpl. apply NoDup_cons_2; [|now apply IH].
  intros Hin. apply Hr.
  apply list_elem_of_In, in_map_iff in Hin as (r' & Heq & Hin).
  apply list_elem_of_In, list_elem_of_filter in Hin as [_ Hin].
  apply list_elem_of_In, in_map_iff. exists r'. split; [exact Heq|].
  now apply list_elem_of_In.
Qed.

Lemma keys_unique_snoc table row :
  keys_unique table -> db.pk_free (cell row "id") table = true ->
  keys_unique (table ++ [row]).
Proof.
  unfold keys_unique. intros Hu Hfree. rewrite map_app. simpl.
  apply NoDup_app. split; [exact Hu|]. split; [|apply NoDup_singleton].
  intros x Hx Hx'. apply list_elem_of_singleton in Hx' as ->.
  now apply (pk_free_not_in _ _ Hfree).
Qed.

Lemma insert_raise cls attrs s e s' :
  db.insert cls attrs s = Raise e s' -> exists n, s' = advance s n.
Proof.
  unfold db.insert. intros H.
  destruct (stamps_run Column.default (fun k => negb (supplied attrs k))
              (table_columns cls) s) as (gen & n & Hgen).
  rewrite (bind_Return _ _ _ _ _ Hgen) in H. simpl in H.
  destruct (db.insert_ok _ _ _); [discriminate|].
  injection H as _ <-. now exists n.
Qed.

Lemma keeps_insert cls attrs : keeps well_keyed (db.insert cls attrs).
Proof.
  intros s [Hrows Hdur].
  destruct (db.insert cls attrs s) as [r s'|e s'] eqn:E; simpl.
  - apply insert_inv in E as (gen & n & row & _ & _ & Hok & _ & ->).
    split; [|exact Hdur]. simpl. apply keys_unique_snoc; [exact Hrows|].
    unfold db.insert_ok in Hok. apply andb_true_iff in Hok as [Hok _].
    now apply andb_true_iff in Hok as [_ Hok].
  - apply insert_raise in E as [n ->]. split; assumption.
Qed.

Lemma keeps_flush cls self :
  generated cls "id" = false -> keeps well_keyed (db.flush cls self).
Proof.
  intros Hidgen s [Hrows Hdur].
  destruct self as [attrs|pk loaded assigned|pk]; try (split; assumption).
  unfold db.flush. cbv zeta.
  set (ch := db.changes cls loaded assigned).
  destruct (bool_decide (ch = ∅)); [split; assumption|].
  destruct (stamps_run Column.onupdate (fun k => negb (bool_decide (k ∈ dom ch)))
              (table_columns cls) s) as (gen & n & Hgen).
  rewrite (bind_Return _ _ _ _ _ Hgen).
  change (rows (advance s n)) with (rows s).
  destruct (db.pk_free pk (rows s)); [split; assumption|].
  destruct (db.update_ok cls pk (rows s) ch) eqn:Eok; [|split; assumption].
  split; [|exact Hdur]. simpl. apply (keys_unique_update cls); try assumption.
  eapply stamps_not_generated; [right; reflexivity | exact Hidgen | exact Hgen].
Qed.

Lemma keeps_commit cls self :
  generated cls "id" = false -> keeps well_keyed (ModelCRUD.commit cls self).
Proof.
  intros Hidgen. unfold ModelCRUD.commit, db.session_commit.
  apply keeps_bind; [now apply keeps_flush|].
  intros self' s [Hrows _]. split; exact Hrows.
Qed.

Lemma keeps_save cls self commit_ :
  generated cls "id" = false -> keeps well_keyed (ModelCRUD.save cls self commit_).
Proof.
  intros Hidgen. unfold ModelCRUD.save. apply keeps_bind.
  - destruct self; [apply keeps_insert | apply keeps_ret | apply keeps_raise].
  - intros self'. destruct commit_; [now apply keeps_commit | apply keeps_ret].
Qed.

Lemma keeps_create cls commit_ kwargs :
  generated cls "id" = false ->
  keeps well_keyed (ModelCRUD.create cls commit_ kwargs).
Proof.
  intros Hidgen. unfold ModelCRUD.create. apply keeps_bind.
  - unfold construct. destruct (forallb _ _); [apply keeps_ret | apply keeps_raise].
  - intros self. now apply keeps_save.
Qed.

Lemma keeps_update cls self commit_ kwargs :
  generated cls "id" = false ->
  keeps well_keyed (ModelCRUD.update cls self commit_ kwargs).
Proof.
  intros Hidgen. unfold ModelCRUD.update. cbv zeta.
  destruct commit_; [now apply keeps_save | apply keeps_ret].
Qed.

Lemma keeps_delete cls self commit_ :
  generated cls "id" = false ->
  keeps well_keyed (ModelCRUD.delete cls self commit_).
Proof.
  intros Hidgen. unfold ModelCRUD.delete. apply keeps_bind.
  - destruct self as [attrs|pk loaded assigned|pk];
      [apply keeps_raise | | apply keeps_ret].
    intros s [Hrows Hdur]. split; [|exact Hdur]. simpl.
    now apply keys_unique_filter.
  - intros self'. destruct commit_; [|apply keeps_ret].
    apply keeps_bind; [now apply keeps_commit | intros; apply keeps_ret].
Qed.

(** X12: primary keys stay unique.  For an entity type whose [id] column
    has no generator, a session whose two tables hold no two rows with the
    same id is still such a session after [create], [update], [delete],
    [create_or_update], [update_by_id] or [delete_by_id], with any
    arguments and whether the call returns or raises. *)
Theorem primary_keys_stay_unique (cls : entity) :
  generated cls "id" = false ->
  (forall commit_ kwargs, keeps well_keyed (ModelCRUD.create cls commit_ kwargs))
  /\ (forall self commit_ kwargs,
        keeps well_keyed (ModelCRUD.update cls self commit_ kwargs))
  /\ (forall self commit_, keeps well_keyed (ModelCRUD.delete cls self commit_))
  /\ (forall kwargs, keeps well_keyed (create_or_update cls kwargs))
  /\ (forall id commit_ kwargs,
        keeps well_keyed (BaseModel.update_by_id cls id commit_ kwargs))
  /\ (forall id commit_ kwargs,
        keeps well_keyed (BaseModel.delete_by_id cls id commit_ kwargs)).
Proof.
  intros Hidgen.
  split; [intros; now apply keeps_create|].
  split; [intros; now apply keeps_update|].
  split; [intros; now apply keeps_delete|].
  split; [|split].
  - intros kwargs. unfold create_or_update, BaseModel.create_or_update.
    destruct (base cls); try now apply keeps_create.
    unfold AssociationModel.create_or_update.
    apply keeps_bind; [apply keeps_final, subdict_final|].
    intros d. apply keeps_bind; [apply keeps_final, get_first_final|].
    intros [record|]; [now apply keeps_update | now apply keeps_create].
  - intros id commit_ kwargs. unfold BaseModel.update_by_id.
    apply keeps_bind; [apply keeps_final, get_by_id_final|].
    intros [record|]; [|apply keeps_raise].
    apply keeps_bind; [now apply keeps_update | intros; apply keeps_ret].
  - intros id commit_ kwargs. unfold BaseModel.delete_by_id.
    apply keeps_bind; [apply keeps_final, get_by_id_final|].
    intros [record|]; [|apply keeps_raise].
    case_bool_decide; [now apply keeps_delete | apply keeps_raise].
Qed.

Lemma primary_keys_stay_unique_witness :
  (forall commit_ kwargs, keeps well_keyed (ModelCRUD.create Student commit_ kwargs))
  /\ (forall self commit_ kwargs,
        keeps well_keyed (ModelCRUD.update Student self commit_ kwargs))
  /\ (forall self commit_, keeps well_keyed (ModelCRUD.delete Student self commit_))
  /\ (forall kwargs, keeps well_keyed (create_or_update Student kwargs))
  /\ (forall id commit_ kwargs,
        keeps well_keyed (BaseModel.update_by_id Student id commit_ kwargs))
  /\ (forall id commit_ kwargs,
        keeps well_keyed (BaseModel.delete_by_id Student id commit_ kwargs)).
Proof.
  apply (primary_keys_stay_unique Student). reflexivity.
Defined.

Lemma keys_unique_inj table (r1 r2 : gmap string value) :
  keys_unique table -> r1 ∈ table -> r2 ∈ table ->
  cell r1 "id" = cell r2 "id" -> r1 = r2.
Proof.
  unfold keys_unique. induction table as [|r table IH]; [intros _ H; inversion H|].
  simpl. intros Hnd H1 H2 Heq. apply NoDup_cons in Hnd as [Hr Hnd].
  assert (Hin : forall r', r' ∈ table -> cell r' "id" ∈ map (fun r => cell r "id") table).
  { intros r' Hr'. apply list_elem_of_In, in_map_iff. exists r'.
    split; [reflexivity | now apply list_elem_of_In]. }
  apply elem_of_cons in H1 as [->|H1], H2 as [->|H2].
  - reflexivity.
  - contradiction Hr. rewrite Heq. now apply Hin.
  - contradiction Hr. rewrite <- Heq. now apply Hin.
  - now apply IH.
Qed.

(** X13: with unique primary keys, [get_by_id] finds the record: when the
    id reads as the integer [z] and a row of the table has the id [z],
    [get_by_id] returns the record of that very row, and leaves the session
    as it is.  (A string id is taken to be short enough for [int] to read
    all its digits.) *)
Theorem get_by_id_finds_the_record
    (cls : entity) (id : pyobj) (z : Z) (row : gmap string value)
    (s : session_state) :
  keys_unique (rows s) ->
  short id ->
  reads_as id z ->
  row ∈ rows s ->
  cell row "id" = VInt z ->
  BaseModel.get_by_id cls id s = Return (Some (db.entity_of row)) s.
Proof.
  intros Hu _ Hz Hin Hid. rewrite (get_by_id_reads _ _ _ _ Hz). unfold db.session_get.
  destruct (head (filter (fun r => has_pk (VInt z) r) (rows s))) as [r|] eqn:Ehead.
  - apply head_filter_Some in Ehead as [Hr Hpk].
    unfold has_pk in Hpk. apply bool_decide_eq_true in Hpk.
    assert (r = row) as -> by (apply (keys_unique_inj (rows s)); congruence).
    reflexivity.
  - rewrite head_filter_None in Ehead. specialize (Ehead row Hin).
    unfold has_pk in Ehead. apply bool_decide_eq_false in Ehead. contradiction.
Qed.

Lemma get_by_id_finds_the_record_witness :
  BaseModel.get_by_id Student (PStr "1") ada_session
  = Return (Some (db.entity_of
                    {[ "id" := VInt 1; "name" := VStr "Ada";
                       "created_at" := VTime 0; "updated_at" := VTime 1 ]}))
      ada_session.
Proof.
  apply (get_by_id_finds_the_record Student (PStr "1") 1
           {[ "id" := VInt 1; "name" := VStr "Ada";
              "created_at" := VTime 0; "updated_at" := VTime 1 ]} ada_session).
  - unfold keys_unique. simpl. apply NoDup_singleton.
  - simpl. lia.
  - simpl. split; [discriminate|]. split; reflexivity.
  - simpl. apply list_elem_of_here.
  - reflexivity.
Defined.

(** ** The association upsert, again *)





(** ** [display] *)





(** ** [new_fk] *)



